(** * authd: user manager, cache lookups, GDM session model and broker session start

    A shallow embedding of the parts of the repository the specification's
    claims are about:

    - [internal/users/manager.go]: [NewManager], [UpdateUser], the lookups,
      the corruption flag and [GenerateID];
    - the [cache] lookups [getUser], [UserByID], [UserByName], [AllUsers];
    - [pam/internal/adapter/gdmmodel.go]: [gdmModel.Update] and [pollGdm];
    - [startBrokerSession] of the PAM client.

    Go strings are byte strings and are modelled by [string] (a list of 8-bit
    characters); [int] values are modelled by [Z]. *)

From Stdlib Require Import ZArith List String Ascii Bool Lia DecimalString.
From stdpp Require Import base option numbers list gmap strings.
Import ListNotations.

Local Open Scope Z_scope.
#[local] Set Warnings "-register-all".

(** ** Go strings as bytes *)

Module gostring.

(** [[]byte(s)]: the bytes of a Go string, each in [0, 256). *)
Definition bytes (s : string) : list Z :=
  map (fun c : ascii => Z.of_N (N_of_ascii c)) (list_ascii_of_string s).

(** [string(b)]: the Go string made of the given bytes. *)
Definition of_bytes (b : list Z) : string :=
  string_of_list_ascii (map (fun z : Z => ascii_of_N (Z.to_N z)) b).

End gostring.

(** ** crypto/sha256 (FIPS 180-4), on bytes *)

Module sha256.

Definition mask32 : Z := 0xFFFFFFFF.

Definition add32 (x y : Z) : Z := Z.land (x + y) mask32.

Definition rotr (n x : Z) : Z :=
  Z.lor (Z.shiftr x n) (Z.land (Z.shiftl x (32 - n)) mask32).

Definition Ch (x y z : Z) : Z :=
  Z.lxor (Z.land x y) (Z.land (Z.lxor x mask32) z).

Definition Maj (x y z : Z) : Z :=
  Z.lxor (Z.lxor (Z.land x y) (Z.land x z)) (Z.land y z).

Definition Sigma0 (x : Z) : Z := Z.lxor (Z.lxor (rotr 2 x) (rotr 13 x)) (rotr 22 x).
Definition Sigma1 (x : Z) : Z := Z.lxor (Z.lxor (rotr 6 x) (rotr 11 x)) (rotr 25 x).
Definition sigma0 (x : Z) : Z := Z.lxor (Z.lxor (rotr 7 x) (rotr 18 x)) (Z.shiftr x 3).
Definition sigma1 (x : Z) : Z := Z.lxor (Z.lxor (rotr 17 x) (rotr 19 x)) (Z.shiftr x 10).

(** The first primes, by trial division. *)
Definition isPrime (n : Z) : bool :=
  (1 <? n) &&
  forallb (fun d => negb (n mod d =? 0)) (map Z.of_nat (seq 2 (Z.to_nat (Z.sqrt n) - 1))).

Definition primes (count : nat) : list Z :=
  firstn count (List.filter isPrime (map Z.of_nat (seq 2 310))).

(** The integer cube root of [n], found bit by bit from bit [bits - 1] down. *)
Fixpoint cbrtBits (bits : nat) (n r : Z) : Z :=
  match bits with
  | O => r
  | S b =>
      let c := r + 2 ^ Z.of_nat b in
      if c * c * c <=? n then cbrtBits b n c else cbrtBits b n r
  end.

(** The round constants: the first 32 bits of the fractional parts of the
    cube roots of the first 64 primes. *)
Definition K : list Z :=
  Eval vm_compute in map (fun p => Z.land (cbrtBits 36 (p * 2 ^ 96) 0) mask32) (primes 64).

(** The initial hash value: the first 32 bits of the fractional parts of the
    square roots of the first 8 primes. *)
Definition H0 : list Z :=
  Eval vm_compute in map (fun p => Z.land (Z.sqrt (p * 2 ^ 64)) mask32) (primes 8).

(** Big-endian encoding of [x] on [n] bytes. *)
Fixpoint be_bytes (n : nat) (x : Z) : list Z :=
  match n with
  | O => []
  | S n' => Z.land (Z.shiftr x (8 * Z.of_nat n')) 0xFF :: be_bytes n' x
  end.

(** Big-endian decoding of a byte list. *)
Definition be_word (b : list Z) : Z :=
  fold_left (fun acc x => Z.lor (Z.shiftl acc 8) x) b 0.

(** The message followed by 0x80, zero bytes up to 56 modulo 64, and the
    message length in bits on 8 bytes. *)
Definition pad (msg : list Z) : list Z :=
  let len := Z.of_nat (length msg) in
  let zeros := Z.to_nat ((55 - len) mod 64) in
  msg ++ 0x80 :: repeat 0 zeros ++ be_bytes 8 (8 * len).

(** The list cut into chunks of [n] elements ([fuel] bounds their number). *)
Fixpoint chunks {A} (fuel : nat) (n : nat) (l : list A) : list (list A) :=
  match fuel with
  | O => []
  | S fuel' =>
      match l with
      | [] => []
      | _ => firstn n l :: chunks fuel' n (skipn n l)
      end
  end.

(** The message schedule, newest word first: [extend n w] adds [n] words to
    the (reversed) schedule [w]. *)
Fixpoint extend (n : nat) (w : list Z) : list Z :=
  match n with
  | O => w
  | S n' =>
      let x := add32 (add32 (sigma1 (nth 1 w 0)) (nth 6 w 0))
                     (add32 (sigma0 (nth 14 w 0)) (nth 15 w 0)) in
      extend n' (x :: w)
  end.

Definition schedule (block : list Z) : list Z :=
  rev (extend 48 (rev (map be_word (chunks 16 4 block)))).

Record regs := Regs { ra : Z; rb : Z; rc : Z; rd : Z; re : Z; rf : Z; rg : Z; rh : Z }.

Definition round (s : regs) (kw : Z * Z) : regs :=
  let t1 := add32 (add32 (add32 (rh s) (Sigma1 (re s))) (Ch (re s) (rf s) (rg s)))
                  (add32 (fst kw) (snd kw)) in
  let t2 := add32 (Sigma0 (ra s)) (Maj (ra s) (rb s) (rc s)) in
  Regs (add32 t1 t2) (ra s) (rb s) (rc s) (add32 (rd s) t1) (re s) (rf s) (rg s).

Definition regs_of (h : list Z) : regs :=
  Regs (nth 0 h 0) (nth 1 h 0) (nth 2 h 0) (nth 3 h 0)
       (nth 4 h 0) (nth 5 h 0) (nth 6 h 0) (nth 7 h 0).

Definition compress (h : list Z) (block : list Z) : list Z :=
  let s := fold_left round (combine K (schedule block)) (regs_of h) in
  [ add32 (nth 0 h 0) (ra s); add32 (nth 1 h 0) (rb s); add32 (nth 2 h 0) (rc s);
    add32 (nth 3 h 0) (rd s); add32 (nth 4 h 0) (re s); add32 (nth 5 h 0) (rf s);
    add32 (nth 6 h 0) (rg s); add32 (nth 7 h 0) (rh s) ].

(** [sha256.Sum256]: the 32-byte digest of a byte string. *)
Definition Sum256 (msg : list Z) : list Z :=
  let p := pad msg in
  let h := fold_left compress (chunks (length p) 64 p) H0 in
  flat_map (be_bytes 4) h.

End sha256.

(** ** unicode/utf8 *)

Module utf8.

Definition RuneError : Z := 0xFFFD.
Definition RuneSelf : Z := 0x80.
Definition MaxRune : Z := 0x10FFFF.

Definition between (lo hi x : Z) : bool := (lo <=? x) && (x <=? hi).

(** A continuation byte, 0x80..0xBF. *)
Definition cont (b : Z) : bool := between 0x80 0xBF b.

(** The range the second byte of a sequence must lie in, by its first byte;
    this excludes overlong forms, surrogates and values above [MaxRune]. *)
Definition second_ok (b0 b1 : Z) : bool :=
  if b0 =? 0xE0 then between 0xA0 0xBF b1
  else if b0 =? 0xED then between 0x80 0x9F b1
  else if b0 =? 0xF0 then between 0x90 0xBF b1
  else if b0 =? 0xF4 then between 0x80 0x8F b1
  else cont b1.

(** The runes a [for range] loop over a string yields: each maximal valid
    sequence gives its code point, every other byte gives [RuneError]. *)
Fixpoint runes (s : list Z) : list Z :=
  match s with
  | [] => []
  | b0 :: t0 =>
      if b0 <? RuneSelf then b0 :: runes t0
      else if between 0xC2 0xDF b0 then
        match t0 with
        | b1 :: t1 =>
            if second_ok b0 b1
            then Z.lor (Z.shiftl (Z.land b0 0x1F) 6) (Z.land b1 0x3F) :: runes t1
            else RuneError :: runes t0
        | [] => RuneError :: runes t0
        end
      else if between 0xE0 0xEF b0 then
        match t0 with
        | b1 :: (b2 :: t2) =>
            if second_ok b0 b1 && cont b2
            then Z.lor (Z.lor (Z.shiftl (Z.land b0 0x0F) 12) (Z.shiftl (Z.land b1 0x3F) 6))
                       (Z.land b2 0x3F) :: runes t2
            else RuneError :: runes t0
        | _ => RuneError :: runes t0
        end
      else if between 0xF0 0xF4 b0 then
        match t0 with
        | b1 :: (b2 :: (b3 :: t3)) =>
            if second_ok b0 b1 && cont b2 && cont b3
            then Z.lor (Z.lor (Z.lor (Z.shiftl (Z.land b0 0x07) 18) (Z.shiftl (Z.land b1 0x3F) 12))
                              (Z.shiftl (Z.land b2 0x3F) 6))
                       (Z.land b3 0x3F) :: runes t3
            else RuneError :: runes t0
        | _ => RuneError :: runes t0
        end
      else RuneError :: runes t0
  end.

(** [utf8.AppendRune] on a non-negative rune: surrogates and values above
    [MaxRune] are written as [RuneError]. *)
Definition EncodeRune (r : Z) : list Z :=
  if r <=? 0x7F then [r]
  else if r <=? 0x7FF then
    [Z.lor 0xC0 (Z.shiftr r 6); Z.lor 0x80 (Z.land r 0x3F)]
  else if (MaxRune <? r) || between 0xD800 0xDFFF r then [0xEF; 0xBF; 0xBD]
  else if r <=? 0xFFFF then
    [Z.lor 0xE0 (Z.shiftr r 12); Z.lor 0x80 (Z.land (Z.shiftr r 6) 0x3F);
     Z.lor 0x80 (Z.land r 0x3F)]
  else
    [Z.lor 0xF0 (Z.shiftr r 18); Z.lor 0x80 (Z.land (Z.shiftr r 12) 0x3F);
     Z.lor 0x80 (Z.land (Z.shiftr r 6) 0x3F); Z.lor 0x80 (Z.land r 0x3F)].

End utf8.

(** ** strings *)

Module gostrings.

(** [strings.Map]: every rune of [s] is replaced by its image, a negative
    image drops it; a byte that is no valid encoding is read as
    [utf8.RuneError]. *)
Definition Map (mapping : Z -> Z) (s : list Z) : list Z :=
  flat_map (fun c => let r := mapping c in if r <? 0 then [] else utf8.EncodeRune r)
           (utf8.runes s).

Definition isASCII (s : list Z) : bool := forallb (fun c => c <? utf8.RuneSelf) s.

Definition lowerByte (c : Z) : Z := if (0x41 <=? c) && (c <=? 0x5A) then c + 32 else c.
Definition upperByte (c : Z) : Z := if (0x61 <=? c) && (c <=? 0x7A) then c - 32 else c.

Section CaseTables.

(** [unicode.ToLower] and [unicode.ToUpper], the case tables of the Go
    standard library, on code points. *)
Variable unicode_ToLower unicode_ToUpper : Z -> Z.

(** [strings.ToLower]: ASCII-only strings are mapped byte by byte, the others
    rune by rune through [unicode.ToLower]. *)
Definition ToLowerBytes (s : list Z) : list Z :=
  if isASCII s then map lowerByte s else Map unicode_ToLower s.

(** [strings.ToUpper], likewise. *)
Definition ToUpperBytes (s : list Z) : list Z :=
  if isASCII s then map upperByte s else Map unicode_ToUpper s.

Definition ToLower (s : string) : string := gostring.of_bytes (ToLowerBytes (gostring.bytes s)).
Definition ToUpper (s : string) : string := gostring.of_bytes (ToUpperBytes (gostring.bytes s)).

End CaseTables.

(** [strings.HasSuffix]. *)
Definition HasSuffix (s suffix : string) : bool :=
  (String.length suffix <=? String.length s)%nat &&
  String.eqb (substring (String.length s - String.length suffix) (String.length suffix) s) suffix.

(** [strings.TrimSuffix]: [s] without the trailing [suffix], when it ends
    with it. *)
Definition TrimSuffix (s suffix : string) : string :=
  if HasSuffix s suffix
  then substring 0 (String.length s - String.length suffix) s
  else s.

(** The case tables on ASCII and on U+0131 (LATIN SMALL LETTER DOTLESS I),
    whose upper case is the ASCII letter I and which is its own lower case. *)
Definition dotless_ToUpper (r : Z) : Z :=
  if r =? 0x131 then 0x49 else upperByte r.
Definition dotless_ToLower (r : Z) : Z := lowerByte r.

End gostrings.

(** ** encoding/binary *)

Module binary.

(** [binary.BigEndian.Uint32]: the first four bytes read as a 32-bit
    big-endian number. *)
Definition BigEndian_Uint32 (b : list Z) : Z :=
  Z.lor (Z.lor (Z.lor (nth 3 b 0) (Z.shiftl (nth 2 b 0) 8)) (Z.shiftl (nth 1 b 0) 16))
        (Z.shiftl (nth 0 b 0) 24).

End binary.



(** ** PAM client: starting a broker session *)

Module pam.

(** The messages [startBrokerSession] answers with. *)
Inductive Msg :=
| pamIgnore (msg : string)
| pamSystemError (msg : string)
| SessionStarted (sessionID encryptionKey : string).

(** [authd.SBRequest] and [authd.SBResponse]. *)
Record SBRequest := { BrokerId : string; Username : string; Lang : string }.
Record SBResponse := { SessionId : string; EncryptionKey : string }.

(** [os.Getenv] on the process environment: the value of the variable, empty
    when it is not set. *)
Definition Getenv (environ : gmap string string) (key : string) : string :=
  default ""%string (environ !! key).

(** The loop over LANG, LC_MESSAGES and LC_ALL: every non-empty value
    overwrites [lang]. *)
Definition langLoop (environ : gmap string string) : string :=
  fold_left (fun lang e => let l := Getenv environ e in
                           if String.eqb l "" then lang else l)
            ["LANG"; "LC_MESSAGES"; "LC_ALL"]%string "C"%string.

(** [startBrokerSession], run: the message it answers with and the requests
    it has sent to the daemon. [SelectBroker] is the client's RPC; its error
    is kept as the error's text. *)
Definition startBrokerSession (environ : gmap string string)
    (SelectBroker : SBRequest -> SBResponse + string)
    (brokerID username : string) : Msg * list SBRequest :=
  if String.eqb brokerID "local" then (pamIgnore "", [])
  else
    let lang := langLoop environ in
    let lang := gostrings.TrimSuffix lang ".UTF-8" in
    let sbReq := {| BrokerId := brokerID; Username := username; Lang := lang |} in
    match SelectBroker sbReq with
    | inr err => (pamSystemError (String.append "can't select broker: " err), [sbReq])
    | inl sbResp =>
        let sessionID := SessionId sbResp in
        if String.eqb sessionID "" then
          (pamSystemError "no session ID returned by broker", [sbReq])
        else
          let encryptionKey := EncryptionKey sbResp in
          if String.eqb encryptionKey "" then
            (pamSystemError "no encryption key returned by broker", [sbReq])
          else (SessionStarted sessionID encryptionKey, [sbReq])
    end.

(** The spec's reading of the selector: the first non-empty value among
    LANG, LC_MESSAGES and LC_ALL, in that order, "C" when all are empty. *)
Definition firstNonEmptyLang (environ : gmap string string) : string :=
  if negb (String.eqb (Getenv environ "LANG") "") then Getenv environ "LANG"
  else if negb (String.eqb (Getenv environ "LC_MESSAGES") "") then Getenv environ "LC_MESSAGES"
  else if negb (String.eqb (Getenv environ "LC_ALL") "") then Getenv environ "LC_ALL"
  else "C"%string.

(** What the loop computes: the last non-empty value in that order, that is
    LC_ALL before LC_MESSAGES before LANG. *)
Definition lastNonEmptyLang (environ : gmap string string) : string :=
  if negb (String.eqb (Getenv environ "LC_ALL") "") then Getenv environ "LC_ALL"
  else if negb (String.eqb (Getenv environ "LC_MESSAGES") "") then Getenv environ "LC_MESSAGES"
  else if negb (String.eqb (Getenv environ "LANG") "") then Getenv environ "LANG"
  else "C"%string.

End pam.

(** ** internal/brokers: the access verdicts *)

Module brokers.

(** Modelled from the spec: the five access verdicts a broker answers with,
    [Granted], [Denied], [Cancelled], [Retry] and [Next]; the constants
    [AuthGranted] ... [AuthNext] of the package are strings and are not among
    the sources at hand. *)
Definition AuthGranted : string := "granted".
Definition AuthDenied : string := "denied".
Definition AuthCancelled : string := "cancelled".
Definition AuthRetry : string := "retry".
Definition AuthNext : string := "next".

End brokers.

(** ** pam/internal/adapter: the GDM model *)

Module adapter.

(** The PAM statuses the model reports. *)
Inductive pamStatus := ErrSystem | ErrCredUnavail.

(** [proto.Stage]. *)
Inductive Stage := Stage_userSelection | Stage_brokerSelection | Stage_authModeSelection | Stage_challenge.

Definition Stage_eqb (a b : Stage) : bool :=
  match a, b with
  | Stage_userSelection, Stage_userSelection
  | Stage_brokerSelection, Stage_brokerSelection
  | Stage_authModeSelection, Stage_authModeSelection
  | Stage_challenge, Stage_challenge => true
  | _, _ => false
  end.

(** [gdm.EventData]: the events exchanged with GDM. A payload the code tests
    against [nil] is an [option]; broker lists, authentication modes, layouts
    and authentication items are carried as they come and kept opaque. *)
Inductive EventData :=
| EventData_UserSelected (userId : string)
| EventData_BrokersReceived (brokersInfos : list string)
| EventData_BrokerSelected (brokerId : option string)
| EventData_AuthModesReceived (authModes : list string)
| EventData_AuthModeSelected (authModeId : option string)
| EventData_UiLayoutReceived (uiLayout : string)
| EventData_StartAuthentication
| EventData_IsAuthenticatedRequested (item : option string)
| EventData_ReselectAuthMode
| EventData_IsAuthenticatedCancelled
| EventData_StageChanged (stage : option Stage)
| EventData_AuthEvent (access msg : string).

(** [tea.Msg]: the messages the model is updated with. [nilMsg] is the nil
    message, [otherMsg] any message of a type [Update] has no case for. *)
Inductive Msg :=
| nilMsg
| gdmPollDone
| userSelected (username : string)
| brokersListReceived (brokers : list string)
| brokerSelected (brokerID : string)
| authModesReceived (authModes : list string)
| authModeSelected (id : string)
| UILayoutReceived (layout : string)
| startAuthentication
| isAuthenticatedRequested (item : string)
| isAuthenticatedResultReceived (access msg : string)
| isAuthenticatedCancelled (msg : string)
| reselectAuthMode
| ChangeStage (s : Stage)
| supportedUILayoutsReceived (layouts : list string)
| pamError (status : pamStatus) (msg : string)
| otherMsg (name : string).

(** [tea.Cmd]: the commands [Update] hands back to the runtime. *)
Inductive Cmd :=
| cmdNil
| sendEvent (msg : Msg)
| emitEvent (event : EventData)
| selectAuthMode (id : string)
| tea_Tick
| tea_Sequence (cmds : list Cmd)
| tea_Batch (cmds : list Cmd).

(** The GDM peer during one update: what [gdm.EmitEvent] answers to an event
    ([None]: no error) and what [gdm.SendPoll] returns. This stands for the
    conversation behind the model's [pamMTx] handle. *)
Record gdmConn := {
  EmitEvent : EventData -> option string;
  SendPoll : list EventData + string
}.

Record gdmModel := {
  waitingAuth : bool;
  conversationsStopped : bool
}.

Definition set_waitingAuth (b : bool) (m : gdmModel) : gdmModel :=
  {| waitingAuth := b; conversationsStopped := conversationsStopped m |}.

(** The double quote character, as a string. *)
Definition dquote : string := String (ascii_of_nat 34) EmptyString.

(** [emitEventSync]: the message it returns; the emission itself is recorded
    by the caller. *)
Definition emitEventSync (gdm : gdmConn) (event : EventData) : Msg :=
  match EmitEvent gdm event with
  | Some err => pamError ErrSystem (String.append "Sending GDM event failed: " err)
  | None => nilMsg
  end.

(** The loop of [pollGdm] over the poll results: the model and the commands
    gathered so far, an error ending the loop at once. *)
Fixpoint pollLoop (m : gdmModel) (commands : list Cmd) (results : list EventData)
  : gdmModel * Cmd :=
  match results with
  | [] => (m, tea_Batch commands)
  | result :: rest =>
      match result with
      | EventData_UserSelected userId =>
          pollLoop m (commands ++ [sendEvent (userSelected userId)]) rest
      | EventData_BrokerSelected None =>
          (m, sendEvent (pamError ErrSystem "missing broker selected"))
      | EventData_BrokerSelected (Some brokerId) =>
          pollLoop m (commands ++ [sendEvent (brokerSelected brokerId)]) rest
      | EventData_AuthModeSelected None =>
          (m, sendEvent (pamError ErrSystem "missing auth mode id"))
      | EventData_AuthModeSelected (Some authModeId) =>
          pollLoop m (commands ++ [selectAuthMode authModeId]) rest
      | EventData_IsAuthenticatedRequested item =>
          if negb (waitingAuth m) then pollLoop m commands rest
          else
            let m := set_waitingAuth false m in
            match item with
            | None => (m, sendEvent (pamError ErrSystem "missing auth requested"))
            | Some item =>
                pollLoop m (commands ++ [sendEvent (isAuthenticatedRequested item)]) rest
            end
      | EventData_ReselectAuthMode =>
          pollLoop m (commands ++ [sendEvent reselectAuthMode]) rest
      | EventData_IsAuthenticatedCancelled =>
          if waitingAuth m
          then pollLoop m (commands ++ [sendEvent (isAuthenticatedCancelled "")]) rest
          else pollLoop m commands rest
      | EventData_StageChanged None =>
          (m, sendEvent (pamError ErrSystem "missing stage changed"))
      | EventData_StageChanged (Some stage) =>
          let commands :=
            if waitingAuth m && negb (Stage_eqb stage Stage_challenge)
            then commands ++ [sendEvent (isAuthenticatedCancelled "")]
            else commands in
          pollLoop m (commands ++ [sendEvent (ChangeStage stage)]) rest
      | _ => pollLoop m commands rest
      end
  end.

(** [pollGdm]: it works on the model through a pointer, so the model it leaves
    is returned with its command. *)
Definition pollGdm (gdm : gdmConn) (m : gdmModel) : gdmModel * Cmd :=
  match SendPoll gdm with
  | inr err => (m, sendEvent (pamError ErrSystem (String.append "Sending GDM poll failed: " err)))
  | inl gdmPollResults => pollLoop m [sendEvent gdmPollDone] gdmPollResults
  end.

Section Update.

(** [dataToMsg], the adapter's decoder of a broker's JSON message, is not
    among the sources at hand: it answers the decoded message or an error
    text. [fmt_q] is [fmt.Sprintf] with "%q" on a string and [json_Marshal]
    is [json.Marshal] on a string, both of the Go standard library. *)
Variable dataToMsg : string -> string + string.
Variable fmt_q : string -> string.
Variable json_Marshal : string -> string.

(** The message of the result an invalid access is replaced with:
    [{"message": accessJSON}], where [accessJSON] is the JSON string of
    [Access %q is not valid]. *)
Definition invalidAccessMsg (access : string) : string :=
  let accessJSON :=
    json_Marshal (String.append "Access " (String.append (fmt_q access) " is not valid")) in
  String.append "{" (String.append dquote (String.append "message" (String.append dquote
    (String.append ": " (String.append accessJSON "}"))))).

(** [gdmModel.Update]: the new model, the command, and the events handed to
    [gdm.EmitEvent] while updating ([emitEventSync] runs inside [Update]).
    The [gdmPollDone] case returns the model as [pollGdm] left it. *)
Definition Update (gdm : gdmConn) (m : gdmModel) (msg : Msg)
  : gdmModel * Cmd * list EventData :=
  if conversationsStopped m then (m, cmdNil, [])
  else
    match msg with
    | gdmPollDone =>
        let (m, poll) := pollGdm gdm m in
        (m, tea_Sequence [tea_Tick; poll], [])
    | userSelected username =>
        (m, emitEvent (EventData_UserSelected username), [])
    | brokersListReceived brokers =>
        (m, emitEvent (EventData_BrokersReceived brokers), [])
    | brokerSelected brokerID =>
        (m, emitEvent (EventData_BrokerSelected (Some brokerID)), [])
    | authModesReceived authModes =>
        (m, emitEvent (EventData_AuthModesReceived authModes), [])
    | authModeSelected id =>
        (m, emitEvent (EventData_AuthModeSelected (Some id)), [])
    | UILayoutReceived layout =>
        let event := EventData_UiLayoutReceived layout in
        (m, sendEvent (emitEventSync gdm event), [event])
    | startAuthentication =>
        if waitingAuth m then (m, cmdNil, [])
        else
          let m := set_waitingAuth true m in
          (m, sendEvent (emitEventSync gdm EventData_StartAuthentication),
           [EventData_StartAuthentication])
    | isAuthenticatedResultReceived access msg =>
        match dataToMsg msg with
        | inr err => (m, sendEvent (pamError ErrSystem err), [])
        | inl authMsg =>
            let forward :=
              let event := EventData_AuthEvent access authMsg in
              (m, sendEvent (emitEventSync gdm event), [event]) in
            if String.eqb access brokers.AuthGranted then forward
            else if String.eqb access brokers.AuthDenied then forward
            else if String.eqb access brokers.AuthCancelled then
              (m, sendEvent (isAuthenticatedCancelled ""), [])
            else if String.eqb access brokers.AuthRetry then forward
            else if String.eqb access brokers.AuthNext then forward
            else
              (m, sendEvent (isAuthenticatedResultReceived brokers.AuthDenied
                               (invalidAccessMsg access)), [])
        end
    | isAuthenticatedCancelled msg =>
        let m := set_waitingAuth false m in
        let event := EventData_AuthEvent brokers.AuthCancelled msg in
        (m, sendEvent (emitEventSync gdm event), [event])
    | _ => (m, cmdNil, [])
    end.

(** A run of the model: the updates applied to the messages in turn, each
    with the GDM peer of its step; what is kept of each step is the model
    before it, the model after it and the events it emitted. *)
Fixpoint run (m : gdmModel) (inputs : list (gdmConn * Msg))
  : list (gdmModel * gdmModel * list EventData) :=
  match inputs with
  | [] => []
  | (gdm, msg) :: rest =>
      let '(m', _, emitted) := Update gdm m msg in
      (m, m', emitted) :: run m' rest
  end.

End Update.

(** The accesses the switch of [Update] has a case for. *)
Definition known_access (access : string) : Prop :=
  access = brokers.AuthGranted \/ access = brokers.AuthDenied \/ access = brokers.AuthCancelled \/
  access = brokers.AuthRetry \/ access = brokers.AuthNext.

(** The number of [EventData_StartAuthentication] among emitted events. *)
Definition isStart (e : EventData) : bool :=
  match e with EventData_StartAuthentication => true | _ => false end.

Definition starts (emitted : list EventData) : nat :=
  length (List.filter isStart emitted).

(** 1 when the model waits for an authentication it has started. *)
Definition pending (m : gdmModel) : nat := if waitingAuth m then 1%nat else 0%nat.

(** 1 for a step that takes the model out of waiting. *)
Definition clears (s : gdmModel * gdmModel * list EventData) : nat :=
  if waitingAuth (fst (fst s)) && negb (waitingAuth (snd (fst s))) then 1%nat else 0%nat.

(** The sum of a count over the steps of a run. *)
Definition total (f : gdmModel * gdmModel * list EventData -> nat)
    (steps : list (gdmModel * gdmModel * list EventData)) : nat :=
  fold_right (fun s acc => (f s + acc)%nat) 0%nat steps.

(** The final model of a run. *)
Definition lastModel (m : gdmModel) (steps : list (gdmModel * gdmModel * list EventData))
  : gdmModel :=
  List.last (map (fun s => snd (fst s)) steps) m.

End adapter.

(** ** Go errors *)

Module goerrors.

(** An error value. [Errorf] is [fmt.Errorf] with a format that wraps
    nothing, kept with its arguments; [wrapError] is [fmt.Errorf] with
    ["%s: %w"], as [decorate.OnError] builds it from a format and its
    arguments; [joinError] is what [errors.Join] returns. *)
Inductive error :=
| ErrNeedsClearing
| NoDataFoundError (key bucketName : string)
| errorString (text : string)
| Errorf (format : string) (args : list fmtArg)
| wrapError (format : string) (args : list fmtArg) (err : error)
| joinError (errs : list error)
with fmtArg :=
| argString (s : string)
| argInt (n : Z)
| argError (e : error).

(** [errors.Is(err, cache.ErrNeedsClearing)]. *)
Fixpoint Is_ErrNeedsClearing (err : error) : bool :=
  match err with
  | ErrNeedsClearing => true
  | wrapError _ _ e => Is_ErrNeedsClearing e
  | joinError errs => existsb Is_ErrNeedsClearing errs
  | _ => false
  end.

(** [errors.Is(err, cache.NoDataFoundError{})]: the error type matches any
    target of its type. *)
Fixpoint Is_NoDataFoundError (err : error) : bool :=
  match err with
  | NoDataFoundError _ _ => true
  | wrapError _ _ e => Is_NoDataFoundError e
  | joinError errs => existsb Is_NoDataFoundError errs
  | _ => false
  end.

(** [errors.Join]: nil errors are dropped, and the result is nil when none
    is left. *)
Definition Join (errs : list (option error)) : option error :=
  match omap id errs with
  | [] => None
  | l => Some (joinError l)
  end.

(** [decorate.OnError]: a returned error is wrapped with the message. *)
Definition OnError (format : string) (args : list fmtArg) (err : option error) : option error :=
  match err with
  | Some e => Some (wrapError format args e)
  | None => None
  end.

End goerrors.

(** ** internal/users/cache *)

Module cache.

Import goerrors.

Record UserPasswdShadow := {
  Name : string;
  UID : Z;
  GID : Z;
  Gecos : string;
  Dir : string;
  Shell : string;
  LastPwdChange : Z;
  MaxPwdAge : Z;
  PwdWarnPeriod : Z;
  PwdInactivity : Z;
  MinPwdAge : Z;
  ExpirationDate : Z
}.

(** Modelled from the spec: a persisted user is its passwd and shadow fields
    with [last_login]; the type [UserDB], its constructor [NewUserDB] and
    [toUserPasswdShadow] are not among the sources at hand. *)
Record UserDB := { passwd : UserPasswdShadow; LastLogin : Z }.

Definition toUserPasswdShadow (u : UserDB) : UserPasswdShadow := passwd u.

Definition NewUserDB (now : Z) (name : string) (uid gid : Z) (gecos dir shell : string) : UserDB :=
  {| passwd := {| Name := name; UID := uid; GID := gid; Gecos := gecos; Dir := dir;
                  Shell := shell; LastPwdChange := -1; MaxPwdAge := -1; PwdWarnPeriod := -1;
                  PwdInactivity := -1; MinPwdAge := -1; ExpirationDate := -1 |};
     LastLogin := now |}.

(** The zero value [UserDB{}]. *)
Definition zeroUserDB : UserDB :=
  {| passwd := {| Name := ""; UID := 0; GID := 0; Gecos := ""; Dir := ""; Shell := "";
                  LastPwdChange := 0; MaxPwdAge := 0; PwdWarnPeriod := 0; PwdInactivity := 0;
                  MinPwdAge := 0; ExpirationDate := 0 |};
     LastLogin := 0 |}.

(** Modelled from the spec: a persisted group is a name, a gid and its
    members; [GroupDB] and [NewGroupDB] are not among the sources at hand. *)
Record GroupDB := { GroupName : string; GroupGID : Z; Users : list string }.

Definition NewGroupDB (name : string) (gid : Z) (members : list string) : GroupDB :=
  {| GroupName := name; GroupGID := gid; Users := members |}.

(** What a bucket holds under a key: bytes that [json.Unmarshal] decodes to a
    value, or bytes it rejects. *)
Inductive stored (T : Type) :=
| Decodes (v : T)
| Garbled (raw : string).
Arguments Decodes {T} v.
Arguments Garbled {T} raw.

(** Modelled from the spec: the logical buckets of the database, each a map
    from key bytes to stored values; [None] is a bucket that is missing. *)
Record Db := {
  userByID : option (gmap string (stored UserDB));
  userByName : option (gmap string (stored UserDB));
  groupByID : option (gmap string (stored GroupDB));
  groupByName : option (gmap string (stored GroupDB));
  userToGroups : option (gmap string (list Z));
  groupToUsers : option (gmap string (list Z))
}.

Definition userByIDBucketName : string := "UserByID".
Definition userByNameBucketName : string := "UserByName".

(** A freshly created database: every bucket is there and empty. *)
Definition emptyDb : Db :=
  {| userByID := Some ∅; userByName := Some ∅; groupByID := Some ∅; groupByName := Some ∅;
     userToGroups := Some ∅; groupToUsers := Some ∅ |}.

(** [strconv.Itoa]. *)
Definition Itoa (n : Z) : string := NilZero.string_of_int (Z.to_int n).

(** The key bytes of a key of type [int | string]. *)
Definition keyBytes (key : Z + string) : string :=
  match key with
  | inl n => Itoa n
  | inr s => s
  end.

(** The bucket of users of the given name. *)
Definition userBucket (c : Db) (bucketName : string) : option (gmap string (stored UserDB)) :=
  if String.eqb bucketName userByIDBucketName then userByID c
  else if String.eqb bucketName userByNameBucketName then userByName c
  else None.

(** Modelled from the spec: [getBucket] answers the bucket or an error when
    it is missing; [getFromBucket] answers the decoded value, a
    [NoDataFoundError] when the key has no entry, or the decoding error. *)
Definition getBucket {V} (bucket : option (gmap string V)) (bucketName : string)
  : gmap string V + error :=
  match bucket with
  | Some b => inl b
  | None => inr (Errorf "bucket %v not found" [argString bucketName])
  end.

Definition getFromBucket {T} (bucket : gmap string (stored T)) (bucketName : string)
    (key : Z + string) : T + error :=
  match bucket !! keyBytes key with
  | None => inr (NoDataFoundError (keyBytes key) bucketName)
  | Some (Garbled raw) =>
      inr (Errorf "can't unmarshal bucket %q for key %v: %v"
                  [argString bucketName; argString (keyBytes key); argString raw])
  | Some (Decodes v) => inl v
  end.

(** [getUser]: the user under the key, or the error of the read transaction;
    every error but a [NoDataFoundError] is joined with [ErrNeedsClearing]. *)
Definition getUser (c : Db) (bucketName : string) (key : Z + string) : UserDB * option error :=
  let err :=
    match getBucket (userBucket c bucketName) bucketName with
    | inr err => inr (joinError [ErrNeedsClearing; err])
    | inl bucket =>
        match getFromBucket bucket bucketName key with
        | inr err =>
            if negb (Is_NoDataFoundError err) then inr (joinError [ErrNeedsClearing; err])
            else inr err
        | inl u => inl u
        end
    end in
  match err with
  | inr err => (zeroUserDB, Some err)
  | inl u => (u, None)
  end.

Definition UserByID (c : Db) (uid : Z) : UserPasswdShadow * option error :=
  let (u, err) := getUser c userByIDBucketName (inl uid) in
  (toUserPasswdShadow u, err).

Definition UserByName (c : Db) (name : string) : UserPasswdShadow * option error :=
  let (u, err) := getUser c userByNameBucketName (inr name) in
  (toUserPasswdShadow u, err).

(** The entries of a bucket in the order of their keys, as [ForEach] visits
    them. *)
Fixpoint insertEntry {V} (kv : string * V) (l : list (string * V)) : list (string * V) :=
  match l with
  | [] => [kv]
  | x :: rest => if String.leb (fst kv) (fst x) then kv :: l else x :: insertEntry kv rest
  end.

Definition entries {V} (bucket : gmap string V) : list (string * V) :=
  fold_right insertEntry [] (map_to_list bucket).

(** The callback of [bucket.ForEach] in [AllUsers], over the entries: the
    users decoded so far, or the error that stops the iteration. *)
Fixpoint forEachUser (l : list (string * stored UserDB)) (all : list UserPasswdShadow)
  : list UserPasswdShadow + error :=
  match l with
  | [] => inl all
  | (key, Garbled raw) :: _ =>
      inr (Errorf "can't unmarshal user in bucket %q for key %v: %v"
                  [argString userByIDBucketName; argString key; argString raw])
  | (key, Decodes e) :: rest => forEachUser rest (all ++ [toUserPasswdShadow e])
  end.

(** [AllUsers]: all users, or the error joined with [ErrNeedsClearing]. *)
Definition AllUsers (c : Db) : list UserPasswdShadow * option error :=
  let res :=
    match getBucket (userByID c) userByIDBucketName with
    | inr err => inr err
    | inl bucket => forEachUser (entries bucket) []
    end in
  match res with
  | inr err => ([], Some (joinError [ErrNeedsClearing; err]))
  | inl all => (all, None)
  end.

(** *** Writes, modelled from the spec *)

(** The text of a bucket that a write finds missing: the error it fails
    with is joined with [ErrNeedsClearing]. *)
Definition missingBucket : error :=
  joinError [ErrNeedsClearing; errorString "bucket not found"].

Definition allBuckets (c : Db) : bool :=
  match userByID c, userByName c, groupByID c, groupByName c, userToGroups c, groupToUsers c with
  | Some _, Some _, Some _, Some _, Some _, Some _ => true
  | _, _, _, _, _, _ => false
  end.

Definition bucketOr {V} (b : option (gmap string V)) : gmap string V := default ∅ b.

(** The groups under both keys. *)
Definition putGroups (groups : list GroupDB) (byID byName : gmap string (stored GroupDB))
  : gmap string (stored GroupDB) * gmap string (stored GroupDB) :=
  fold_left (fun acc g => (<[Itoa (GroupGID g) := Decodes g]> (fst acc),
                           <[GroupName g := Decodes g]> (snd acc)))
            groups (byID, byName).

(** [uid] out of the members of every group, then into those of [gids]. *)
Definition setMembership (uid : Z) (gids : list Z) (g2u : gmap string (list Z))
  : gmap string (list Z) :=
  let removed := (fun members : list Z => List.filter (fun u => negb (u =? uid)) members) <$> g2u in
  fold_left (fun acc gid => <[Itoa gid := default [] (acc !! Itoa gid) ++ [uid]]> acc)
            gids removed.

(** Modelled from the spec: [UpdateUserEntry] writes the user under its id
    and under its name, the groups under theirs, and the membership of the
    user both ways, in one transaction: on an error nothing is written.
    [fault] is the error of the transaction itself, if any (the disk, the
    lock). The function is not among the sources at hand. *)
Definition UpdateUserEntry (fault : option error) (c : Db) (usr : UserDB) (groups : list GroupDB)
  : Db * option error :=
  match fault with
  | Some err => (c, Some err)
  | None =>
      if negb (allBuckets c) then (c, Some missingBucket)
      else
        let u := passwd usr in
        let gs := putGroups groups (bucketOr (groupByID c)) (bucketOr (groupByName c)) in
        let gids := map GroupGID groups in
        ({| userByID := Some (<[Itoa (UID u) := Decodes usr]> (bucketOr (userByID c)));
            userByName := Some (<[Name u := Decodes usr]> (bucketOr (userByName c)));
            groupByID := Some (fst gs);
            groupByName := Some (snd gs);
            userToGroups := Some (<[Itoa (UID u) := gids]> (bucketOr (userToGroups c)));
            groupToUsers := Some (setMembership (UID u) gids (bucketOr (groupToUsers c))) |},
         None)
  end.

(** Modelled from the spec: [DeleteUser] removes the user from both keyings
    and from the membership indexes; a user that is not there is no error.
    An entry that does not decode, or a missing bucket, is an error joined
    with [ErrNeedsClearing]. The function is not among the sources at hand. *)
Definition DeleteUser (fault : option error) (c : Db) (uid : Z) : Db * option error :=
  match fault with
  | Some err => (c, Some err)
  | None =>
      if negb (allBuckets c) then (c, Some missingBucket)
      else
        match bucketOr (userByID c) !! Itoa uid with
        | Some (Garbled raw) =>
            (c, Some (joinError [ErrNeedsClearing;
                                 Errorf "can't unmarshal bucket %q for key %v: %v"
                                        [argString userByIDBucketName; argString (Itoa uid);
                                         argString raw]]))
        | entry =>
            let byName :=
              match entry with
              | Some (Decodes usr) => delete (Name (passwd usr)) (bucketOr (userByName c))
              | _ => bucketOr (userByName c)
              end in
            ({| userByID := Some (delete (Itoa uid) (bucketOr (userByID c)));
                userByName := Some byName;
                groupByID := groupByID c;
                groupByName := groupByName c;
                userToGroups := Some (delete (Itoa uid) (bucketOr (userToGroups c)));
                groupToUsers := Some (setMembership uid [] (bucketOr (groupToUsers c))) |},
             None)
        end
  end.

(** Modelled from the spec: [CleanExpiredUsers] removes every user whose
    last login is before the cutoff and whose uid owns no running process,
    and returns the names removed. The function is not among the sources at
    hand. *)
Fixpoint cleanLoop (fault : option error) (activeUIDs : list Z) (expirationDate : Z)
    (l : list (string * stored UserDB)) (c : Db) (cleaned : list string)
  : Db * (list string + error) :=
  match l with
  | [] => (c, inl cleaned)
  | (key, Garbled raw) :: _ =>
      (c, inr (joinError [ErrNeedsClearing;
                          Errorf "can't unmarshal user in bucket %q for key %v: %v"
                                 [argString userByIDBucketName; argString key; argString raw]]))
  | (key, Decodes usr) :: rest =>
      if (LastLogin usr <? expirationDate) &&
         negb (existsb (Z.eqb (UID (passwd usr))) activeUIDs)
      then
        match DeleteUser fault c (UID (passwd usr)) with
        | (c', None) =>
            cleanLoop fault activeUIDs expirationDate rest c' (cleaned ++ [Name (passwd usr)])
        | (c', Some err) => (c', inr err)
        end
      else cleanLoop fault activeUIDs expirationDate rest c cleaned
  end.

Definition CleanExpiredUsers (fault : option error) (c : Db) (activeUIDs : list Z)
    (expirationDate : Z) : Db * (list string + error) :=
  match userByID c with
  | None => (c, inr missingBucket)
  | Some bucket => cleanLoop fault activeUIDs expirationDate (entries bucket) c []
  end.

(** The database file under the cache directory. *)
Inductive DbFile :=
| NoFile
| Invalid (raw : string)
| Valid (db : Db).

(** Modelled from the spec: [New] opens the database of the directory and
    creates it when there is none; a file that is no database is an error
    joined with [ErrNeedsClearing]; [fault] is any other error of the
    opening. [RemoveDb] deletes the file, and [Clear] destroys and recreates
    the database. None of the three is among the sources at hand. *)
Definition New (fault : option error) (file : DbFile) : Db + error :=
  match fault with
  | Some err => inr err
  | None =>
      match file with
      | NoFile => inl emptyDb
      | Invalid raw =>
          inr (wrapError "could not create new database object at %q" []
                 (joinError [ErrNeedsClearing; errorString "invalid database"]))
      | Valid db => inl db
      end
  end.

Definition RemoveDb (fault : option error) (file : DbFile) : DbFile * option error :=
  match fault with
  | Some err => (file, Some err)
  | None => (NoFile, None)
  end.

Definition Clear (fault : option error) (c : Db) : Db * option error :=
  match fault with
  | Some err => (c, Some err)
  | None => (emptyDb, None)
  end.

End cache.

(** ** internal/users/localgroups *)

Module localgroups.

Import goerrors.

(** Modelled from the spec: the local groups of the host, as the groups each
    user is a member of. [Update] sets the groups of a user to the desired
    ones, [CleanUser] takes a user out of every group, and [Clean] takes out
    every user that is no longer in the identity store. [fault] is the error
    of the operation, if any. The package is not among the sources at hand. *)
Definition Update (fault : option error) (groups : gmap string (list string))
    (username : string) (desired : list string)
  : gmap string (list string) * option error :=
  match fault with
  | Some err => (groups, Some err)
  | None =>
      (match desired with
       | [] => delete username groups
       | _ => <[username := desired]> groups
       end, None)
  end.

Definition CleanUser (fault : option error) (groups : gmap string (list string))
    (username : string) : gmap string (list string) * option error :=
  match fault with
  | Some err => (groups, Some err)
  | None => (delete username groups, None)
  end.

Definition inStore (store : option cache.Db) (username : string) : bool :=
  match store with
  | Some c =>
      match cache.userByName c with
      | Some bucket => bool_decide (is_Some (bucket !! username))
      | None => false
      end
  | None => false
  end.

Definition Clean (fault : option error) (store : option cache.Db)
    (groups : gmap string (list string)) : gmap string (list string) * option error :=
  match fault with
  | Some err => (groups, Some err)
  | None => (filter (fun kv => inStore store (fst kv) = true) groups, None)
  end.

End localgroups.

(** ** internal/users: the manager *)

Module users.

Import goerrors.

(** [GroupInfo] and [UserInfo], the user information a broker returns; a
    group without GID is a [None]. *)
Record GroupInfo := { GroupName : string; GID : option Z }.

Record UserInfo := {
  Name : string;
  UID : Z;
  Gecos : string;
  Dir : string;
  Shell : string;
  Groups : list GroupInfo
}.

(** [UserEntry], the passwd entry served to NSS. *)
Record UserEntry := {
  EntryName : string;
  EntryUID : Z;
  EntryGID : Z;
  EntryGecos : string;
  EntryDir : string;
  EntryShell : string
}.

Definition userEntryFromUserDB (u : cache.UserPasswdShadow) : UserEntry :=
  {| EntryName := cache.Name u; EntryUID := cache.UID u; EntryGID := cache.GID u;
     EntryGecos := cache.Gecos u; EntryDir := cache.Dir u; EntryShell := cache.Shell u |}.

(** The zero value [UserEntry{}]. *)
Definition zeroUserEntry : UserEntry :=
  {| EntryName := ""; EntryUID := 0; EntryGID := 0; EntryGecos := ""; EntryDir := "";
     EntryShell := "" |}.

Definition dirtyFlagName : string := ".corrupted".

(** What the manager finds outside of itself during a call: the clock, the
    options, the uids of the running processes ([getUIDsOfRunningProcesses]),
    and the error, if any, of each operation on the database file, the local
    groups and the flag file. *)
Record Env := {
  now : Z;
  expirationDate : Z;
  cleanOnNew : bool;
  runningUIDs : list Z + error;
  failOpen : option error;
  failRemoveDb : option error;
  failClear : option error;
  failUpdateEntry : option error;
  failDeleteUser : option error;
  failLocalUpdate : option error;
  failLocalClean : option error;
  failLocalCleanUser : option error;
  failRemoveFlag : option error;
  failWriteFlag : option error
}.

(** The manager with the files it works on: [cache] is nil or the open
    database, [files] the files that exist in the cache directory beside the
    database, [localGroups] the local groups of the host, [doClear] the
    number of requests made on the channel of that name (each is taken by the
    cleanup routine, or dropped after 10 ms when the routine is busy), and
    [cleanupRoutine] whether the routine has been started. *)
Record Manager := {
  cache : option cache.Db;
  dirtyFlagPath : string;
  files : gset string;
  localGroups : gmap string (list string);
  doClear : nat;
  cleanupRoutine : bool
}.

Definition set_cache (c : option cache.Db) (m : Manager) : Manager :=
  {| cache := c; dirtyFlagPath := dirtyFlagPath m; files := files m;
     localGroups := localGroups m; doClear := doClear m; cleanupRoutine := cleanupRoutine m |}.

Definition set_files (f : gset string) (m : Manager) : Manager :=
  {| cache := cache m; dirtyFlagPath := dirtyFlagPath m; files := f;
     localGroups := localGroups m; doClear := doClear m; cleanupRoutine := cleanupRoutine m |}.

Definition set_localGroups (g : gmap string (list string)) (m : Manager) : Manager :=
  {| cache := cache m; dirtyFlagPath := dirtyFlagPath m; files := files m;
     localGroups := g; doClear := doClear m; cleanupRoutine := cleanupRoutine m |}.

Definition set_doClear (n : nat) (m : Manager) : Manager :=
  {| cache := cache m; dirtyFlagPath := dirtyFlagPath m; files := files m;
     localGroups := localGroups m; doClear := n; cleanupRoutine := cleanupRoutine m |}.

Definition set_cleanupRoutine (b : bool) (m : Manager) : Manager :=
  {| cache := cache m; dirtyFlagPath := dirtyFlagPath m; files := files m;
     localGroups := localGroups m; doClear := doClear m; cleanupRoutine := b |}.

(** [isMarkedCorrupted]: [os.Stat] finds the flag file. *)
Definition isMarkedCorrupted (m : Manager) : bool :=
  bool_decide (dirtyFlagPath m ∈ files m).

(** [markCorrupted]: writes the flag file unless it is there. *)
Definition markCorrupted (env : Env) (m : Manager) : Manager * option error :=
  if isMarkedCorrupted m then (m, None)
  else
    match failWriteFlag env with
    | Some err => (m, Some err)
    | None => (set_files ({[dirtyFlagPath m]} ∪ files m) m, None)
    end.

(** [requestClearDatabase]: the error of [markCorrupted] is only logged. *)
Definition requestClearDatabase (env : Env) (m : Manager) : Manager :=
  let m := fst (markCorrupted env m) in
  set_doClear (S (doClear m)) m.

(** [shouldClearDb]. *)
Definition shouldClearDb (env : Env) (m : Manager) (err : option error) : Manager * option error :=
  match err with
  | Some e => if Is_ErrNeedsClearing e then (requestClearDatabase env m, err) else (m, err)
  | None => (m, err)
  end.

(** The loop of [UpdateUser] over the groups of the user. *)
Fixpoint groupLoop (username : string) (groups : list GroupInfo)
    (groupContents : list cache.GroupDB) (localGroups : list string)
  : list cache.GroupDB * list string + error :=
  match groups with
  | [] => inl (groupContents, localGroups)
  | g :: rest =>
      if String.eqb (GroupName g) "" then
        inr (Errorf "empty group name for user %q" [argString username])
      else
        match GID g with
        | None => groupLoop username rest groupContents (localGroups ++ [GroupName g])
        | Some gid =>
            groupLoop username rest
                      (groupContents ++ [cache.NewGroupDB (GroupName g) gid []]) localGroups
        end
  end.

(** [UpdateUser] before its deferred [decorate.OnError]. [None] stands for
    the panic of a call on a nil cache. *)
Definition updateUser (env : Env) (m : Manager) (u : UserInfo) : option (Manager * option error) :=
  if String.eqb (Name u) "" then Some (m, Some (errorString "empty username"))
  else
    match Groups u with
    | [] =>
        Some (m, Some (Errorf "no group provided for user %s (%v)"
                              [argString (Name u); argInt (UID u)]))
    | g0 :: _ =>
        match GID g0 with
        | None =>
            Some (m, Some (Errorf "no gid provided for default group %q"
                                  [argString (GroupName g0)]))
        | Some gid0 =>
            match groupLoop (Name u) (Groups u) [] [] with
            | inr err => Some (m, Some err)
            | inl (groupContents, localGroups) =>
                let userDB :=
                  cache.NewUserDB (now env) (Name u) (UID u) gid0 (Gecos u) (Dir u) (Shell u) in
                match cache m with
                | None => None
                | Some c =>
                    match cache.UpdateUserEntry (failUpdateEntry env) c userDB groupContents with
                    | (c, Some err) => Some (shouldClearDb env (set_cache (Some c) m) (Some err))
                    | (c, None) =>
                        let m := set_cache (Some c) m in
                        match localgroups.Update (failLocalUpdate env) (users.localGroups m)
                                                 (Name u) localGroups with
                        | (lg, Some err) =>
                            let m := set_localGroups lg m in
                            let (c, derr) := cache.DeleteUser (failDeleteUser env) c (UID u) in
                            let (m, derr) := shouldClearDb env (set_cache (Some c) m) derr in
                            Some (m, Join [Some err; derr])
                        | (lg, None) => Some (set_localGroups lg m, None)
                        end
                    end
                end
            end
        end
    end.

(** [UpdateUser]: updates the user information in the cache. *)
Definition UpdateUser (env : Env) (m : Manager) (u : UserInfo) : option (Manager * option error) :=
  match updateUser env m u with
  | Some (m, err) => Some (m, OnError "failed to update user %q" [argString (Name u)] err)
  | None => None
  end.

(** [UserByName], [UserByID] and [AllUsers] of the manager. *)
Definition UserByName (env : Env) (m : Manager) (username : string)
  : option (Manager * UserEntry * option error) :=
  match cache m with
  | None => None
  | Some c =>
      match cache.UserByName c username with
      | (usr, Some err) =>
          let (m, err) := shouldClearDb env m (Some err) in Some (m, zeroUserEntry, err)
      | (usr, None) => Some (m, userEntryFromUserDB usr, None)
      end
  end.

Definition UserByID (env : Env) (m : Manager) (uid : Z)
  : option (Manager * UserEntry * option error) :=
  match cache m with
  | None => None
  | Some c =>
      match cache.UserByID c uid with
      | (usr, Some err) =>
          let (m, err) := shouldClearDb env m (Some err) in Some (m, zeroUserEntry, err)
      | (usr, None) => Some (m, userEntryFromUserDB usr, None)
      end
  end.

Definition AllUsers (env : Env) (m : Manager) : option (Manager * list UserEntry * option error) :=
  match cache m with
  | None => None
  | Some c =>
      match cache.AllUsers c with
      | (usrs, Some err) =>
          let (m, err) := shouldClearDb env m (Some err) in Some (m, [], err)
      | (usrs, None) => Some (m, map userEntryFromUserDB usrs, None)
      end
  end.

(** [os.Remove] of the flag file: its error, which [clear] only logs, and
    the files left. *)
Definition removeFlag (env : Env) (m : Manager) : Manager * option error :=
  match failRemoveFlag env with
  | Some err => (m, Some err)
  | None =>
      if isMarkedCorrupted m then (set_files (files m ∖ {[dirtyFlagPath m]}) m, None)
      else (m, Some (errorString "no such file or directory"))
  end.

(** [clear]: clears the corrupted database and rebuilds it. *)
Definition clear (env : Env) (m : Manager) : option (Manager * option error) :=
  match cache m with
  | None => None
  | Some c =>
      match cache.Clear (failClear env) c with
      | (c, Some err) =>
          Some (set_cache (Some c) m,
                Some (Errorf "could not clear corrupted data: %v" [argError err]))
      | (c, None) =>
          let m := set_cache (Some c) m in
          let m := fst (removeFlag env m) in
          match localgroups.Clean (failLocalClean env) (cache m) (localGroups m) with
          | (lg, Some err) =>
              Some (set_localGroups lg m,
                    Some (Errorf "could not clean local groups: %v" [argError err]))
          | (lg, None) => Some (set_localGroups lg m, None)
          end
      end
  end.

(** The loop of [cleanExpiredUserData] over the cleaned users: the local
    groups left and the error of the last call. *)
Fixpoint cleanUsersLoop (env : Env) (cleanedUsers : list string)
    (groups : gmap string (list string)) (err : option error)
  : gmap string (list string) * option error :=
  match cleanedUsers with
  | [] => (groups, err)
  | u :: rest =>
      let (groups, err) := localgroups.CleanUser (failLocalCleanUser env) groups u in
      cleanUsersLoop env rest groups err
  end.

(** [cleanExpiredUserData]. *)
Definition cleanExpiredUserData (env : Env) (m : Manager) : option (Manager * option error) :=
  match runningUIDs env with
  | inr err =>
      Some (m, Some (Errorf "could not get list of active users: %v" [argError err]))
  | inl activeUIDs =>
      match cache m with
      | None => None
      | Some c =>
          match cache.CleanExpiredUsers (failDeleteUser env) c activeUIDs (expirationDate env) with
          | (c, inr err) =>
              Some (set_cache (Some c) m,
                    Some (Errorf "could not clean database of expired users: %v" [argError err]))
          | (c, inl cleanedUsers) =>
              let m := set_cache (Some c) m in
              let (lg, err) := cleanUsersLoop env cleanedUsers (localGroups m) None in
              Some (set_localGroups lg m, err)
          end
      end
  end.

(** The host before the manager is created: the database file, the other
    files of the cache directory and the local groups. *)
Record Host := {
  dbFile : cache.DbFile;
  hostFiles : gset string;
  hostGroups : gmap string (list string)
}.

(** The loop of [NewManager] that opens the database, at most [n] times:
    the cache (nil when the loop has run out), the database file and the
    local groups, or the error [NewManager] returns. *)
Fixpoint openLoop (env : Env) (n : nat) (file : cache.DbFile)
    (groups : gmap string (list string))
  : option cache.Db * gmap string (list string) + error :=
  match n with
  | O => inl (None, groups)
  | S n' =>
      match cache.New (failOpen env) file with
      | inl c => inl (Some c, groups)
      | inr err =>
          if Is_ErrNeedsClearing err then
            match cache.RemoveDb (failRemoveDb env) file with
            | (_, Some err) => inr (Errorf "could not clear database: %v" [argError err])
            | (file, None) =>
                let groups := fst (localgroups.Clean (failLocalClean env) None groups) in
                openLoop env n' file groups
            end
          else inr err
      end
  end.

(** The outcome of [NewManager]: a manager, an error, or a panic. *)
Inductive created :=
| Created (m : Manager)
| Failed (err : error)
| Panicked.

(** [NewManager]. [filepath_Join] is [filepath.Join] of the Go standard
    library. *)
Definition NewManager (filepath_Join : string -> string -> string) (env : Env) (host : Host)
    (cacheDir : string) : created :=
  match openLoop env 2 (dbFile host) (hostGroups host) with
  | inr err => Failed err
  | inl (c, groups) =>
      let m := {| cache := c; dirtyFlagPath := filepath_Join cacheDir dirtyFlagName;
                  files := hostFiles host; localGroups := groups; doClear := 0%nat;
                  cleanupRoutine := false |} in
      let cleared :=
        if isMarkedCorrupted m then
          match clear env m with
          | None => Panicked
          | Some (m, Some err) =>
              Failed (Errorf "could not clear corrupted data: %v" [argError err])
          | Some (m, None) => Created m
          end
        else Created m in
      match cleared with
      | Created m =>
          let cleaned :=
            if cleanOnNew env then
              match cleanExpiredUserData env m with
              | None => Panicked
              | Some (m, _) => Created m
              end
            else Created m in
          match cleaned with
          | Created m => Created (set_cleanupRoutine true m)
          | other => other
          end
      | other => other
      end
  end.

(** The groups of a user that carry a GID, as [UpdateUser] hands them to
    the cache, and the names of those that carry none. *)
Definition persistedGroups (u : UserInfo) : list cache.GroupDB :=
  omap (fun g => (fun gid => cache.NewGroupDB (GroupName g) gid []) <$> GID g) (Groups u).

Definition localGroupNames (u : UserInfo) : list string :=
  omap (fun g => match GID g with None => Some (GroupName g) | Some _ => None end) (Groups u).

(** The spec's reading of a lookup in a bucket of users: the stored record,
    a not-found error that does not ask for clearing when the key has no
    entry, and an error that asks for clearing when the bucket is missing or
    the entry does not decode. *)
Definition lookupOutcome (bucket : option (gmap string (cache.stored cache.UserDB)))
    (key : string) (res : cache.UserPasswdShadow * option error) : Prop :=
  match bucket with
  | Some b =>
      match b !! key with
      | Some (cache.Decodes u) => res = (cache.passwd u, None)
      | None =>
          exists e, res = (cache.passwd cache.zeroUserDB, Some e) /\
                    Is_NoDataFoundError e = true /\ Is_ErrNeedsClearing e = false
      | Some (cache.Garbled _) =>
          exists e, res = (cache.passwd cache.zeroUserDB, Some e) /\
                    Is_ErrNeedsClearing e = true
      end
  | None =>
      exists e, res = (cache.passwd cache.zeroUserDB, Some e) /\ Is_ErrNeedsClearing e = true
  end.

(** *** ID generation *)

Definition minID : Z := 65536.
(** [math.MaxInt32]. *)
Definition maxID : Z := 2147483647.

(** [binary.BigEndian.Uint32(hash[:4]) % maxID]. *)
Definition number (hash : list Z) : Z :=
  binary.BigEndian_Uint32 (firstn 4 hash) mod maxID.

(** The loop [for number < minID { hash = sha256.Sum256(hash[:]); ... }]:
    [fuel] bounds the number of rehashes, [None] stands for a loop that has
    not exited within them. *)
Fixpoint rehash (fuel : nat) (hash : list Z) : option Z :=
  if number hash <? minID then
    match fuel with
    | O => None
    | S fuel' => rehash fuel' (sha256.Sum256 hash)
    end
  else Some (number hash).

Section CaseTables.

Variable unicode_ToLower : Z -> Z.

(** The digest the loop starts from. *)
Definition firstHash (str : string) : list Z :=
  sha256.Sum256 (gostring.bytes (gostrings.ToLower unicode_ToLower str)).

Definition GenerateID (fuel : nat) (str : string) : option Z :=
  rehash fuel (firstHash str).

(** The number the loop tests after [k] rehashes. *)
Definition attempt (str : string) (k : nat) : Z :=
  number (Nat.iter k sha256.Sum256 (firstHash str)).

End CaseTables.


End users.

(** ** pam/internal/adapter: what the model says to GDM and to the runtime *)

Module gdmtalk.

Import adapter.

(** [stopConversations]: it waits, one second at most, until no conversation
    with GDM is in progress, and returns the model with
    [conversationsStopped] set; the wait leaves nothing in the model. *)
Definition stopConversations (m : gdmModel) : gdmModel :=
  {| waitingAuth := waitingAuth m; conversationsStopped := true |}.

(** [changeStage]: the command, run, and the stage requests made to GDM.
    [SendRequest] is what [gdm.SendRequest] answers to the request of a
    stage: an error text, or none. *)
Definition changeStage (SendRequest : Stage -> option string) (m : gdmModel) (s : Stage)
  : Cmd * list Stage :=
  if conversationsStopped m then (cmdNil, [])
  else
    (sendEvent match SendRequest s with
               | Some err => pamError ErrSystem (String.append "Changing GDM stage failed: " err)
               | None => nilMsg
               end,
     [s]).

(** The messages a command hands to the runtime through [sendEvent], in the
    order of the command; a sequence and a batch hand over those of their
    commands. *)
Fixpoint sent (c : Cmd) : list Msg :=
  match c with
  | sendEvent msg => [msg]
  | tea_Sequence cmds => flat_map sent cmds
  | tea_Batch cmds => flat_map sent cmds
  | _ => []
  end.

Definition isAuthRequest (msg : Msg) : bool :=
  match msg with isAuthenticatedRequested _ => true | _ => false end.

Definition isCancel (msg : Msg) : bool :=
  match msg with isAuthenticatedCancelled _ => true | _ => false end.

(** The number of messages of a command that carry authentication data. *)
Definition authRequests (c : Cmd) : nat := length (List.filter isAuthRequest (sent c)).

(** The messages whose case in [Update] writes [waitingAuth], itself or
    through [pollGdm]. *)
Definition drivesAuth (msg : Msg) : bool :=
  match msg with
  | gdmPollDone | startAuthentication | isAuthenticatedCancelled _ => true
  | _ => false
  end.

End gdmtalk.

(** ** strconv *)

Module strconv.

Definition digit (ch : ascii) : option Z :=
  let n := Z.of_N (N_of_ascii ch) in
  if (48 <=? n) && (n <=? 57) then Some (n - 48) else None.

Fixpoint digits (s : string) (n : Z) : option Z :=
  match s with
  | EmptyString => Some n
  | String ch rest =>
      match digit ch with
      | Some d => digits rest (n * 10 + d)
      | None => None
      end
  end.

(** [strconv.Atoi] where [int] has 64 bits: an optional sign, then decimal
    digits, one at least, of a number an [int] holds; [None] is an error. *)
Definition Atoi (s : string) : option Z :=
  let '(neg, body) :=
    match s with
    | String "-"%char rest => (true, rest)
    | String "+"%char rest => (false, rest)
    | _ => (false, s)
    end in
  match body with
  | EmptyString => None
  | _ =>
      match digits body 0 with
      | Some n =>
          let v := if neg : bool then - n else n in
          if (- 2 ^ 63 <=? v) && (v <? 2 ^ 63) then Some v else None
      | None => None
      end
  end.

End strconv.

(** ** internal/users: the uids of the running processes *)

Module procdir.

Import goerrors.

(** What [dirEntry.Info()] and [info.Sys()] give for an entry of the
    directory: an error that is [fs.ErrNotExist], any other error, a
    [*syscall.Stat_t] with its [Uid], or something that is no
    [*syscall.Stat_t], with [info.Name()]. *)
Inductive info :=
| Vanished (err : error)
| Unreadable (err : error)
| Stat_t (Uid : Z)
| NotStat_t (name : string).

Record DirEntry := { Name : string; Info : info }.

(** The loop over the entries of the directory: the uids gathered, or the
    error that ends it. *)
Fixpoint uidLoop (dirEntries : list DirEntry) (uids : gset Z) : gset Z + error :=
  match dirEntries with
  | [] => inl uids
  | dirEntry :: rest =>
      match strconv.Atoi (Name dirEntry) with
      | None => uidLoop rest uids
      | Some _ =>
          match Info dirEntry with
          | Vanished _ => uidLoop rest uids
          | Unreadable err => inr err
          | NotStat_t name =>
              inr (Errorf "could not get ownership of file %q" [argString name])
          | Stat_t uid => uidLoop rest ({[uid]} ∪ uids)
          end
      end
  end.

(** [getUIDsOfRunningProcesses]; [ReadDir] is what [os.ReadDir] answers for
    the directory. *)
Definition getUIDsOfRunningProcesses (ReadDir : list DirEntry + error) : gset Z + error :=
  let res :=
    match ReadDir with
    | inr err => inr err
    | inl dirEntries => uidLoop dirEntries ∅
    end in
  match res with
  | inr err => inr (wrapError "could not get UIDs of running processes" [] err)
  | inl uids => inl uids
  end.

(** An entry named as a process is: its name is a number. *)
Definition isProcess (e : DirEntry) : bool :=
  match strconv.Atoi (Name e) with Some _ => true | None => false end.

(** An entry whose information ends the walk with an error. *)
Definition blocks (e : DirEntry) : bool :=
  match Info e with Unreadable _ | NotStat_t _ => true | _ => false end.

(** An entry that is gone by the time it is looked at. *)
Definition vanished (e : DirEntry) : bool :=
  match Info e with Vanished _ => true | _ => false end.

(** The environment of the manager when the process directory reads as
    [ReadDir]. *)
Definition scanning (env : users.Env) (ReadDir : list DirEntry + error) : users.Env :=
  {| users.now := users.now env; users.expirationDate := users.expirationDate env;
     users.cleanOnNew := users.cleanOnNew env;
     users.runningUIDs :=
       match getUIDsOfRunningProcesses ReadDir with
       | inl uids => inl (elements uids)
       | inr err => inr err
       end;
     users.failOpen := users.failOpen env; users.failRemoveDb := users.failRemoveDb env;
     users.failClear := users.failClear env; users.failUpdateEntry := users.failUpdateEntry env;
     users.failDeleteUser := users.failDeleteUser env;
     users.failLocalUpdate := users.failLocalUpdate env;
     users.failLocalClean := users.failLocalClean env;
     users.failLocalCleanUser := users.failLocalCleanUser env;
     users.failRemoveFlag := users.failRemoveFlag env;
     users.failWriteFlag := users.failWriteFlag env |}.

End procdir.

(** ** internal/users/cache: what a bucket of users decodes to *)

Module userbucket.

(** The user an entry decodes to, if it does. *)
Definition decodedUser (kv : string * cache.stored cache.UserDB) : option cache.UserPasswdShadow :=
  match snd kv with
  | cache.Decodes e => Some (cache.toUserPasswdShadow e)
  | cache.Garbled _ => None
  end.

(** The passwd entry [UpdateUser] stores for a user whose default group has
    the gid [gid0]. *)
Definition entryOf (u : users.UserInfo) (gid0 : Z) : users.UserEntry :=
  {| users.EntryName := users.Name u; users.EntryUID := users.UID u; users.EntryGID := gid0;
     users.EntryGecos := users.Gecos u; users.EntryDir := users.Dir u;
     users.EntryShell := users.Shell u |}.

End userbucket.

(** ** Sample inputs *)

(** An environment with LANG and LC_ALL set, and a broker that answers. *)
Definition environ_fr : gmap string string :=
  {[ "LANG"%string := "en_US.UTF-8"%string; "LC_ALL"%string := "fr_FR.UTF-8"%string ]}.

Definition broker_ok (r : pam.SBRequest) : pam.SBResponse + string :=
  inl {| pam.SessionId := "session-1"; pam.EncryptionKey := "key-1" |}.

(** A GDM peer that accepts every event and has nothing to report, one that
    reports the authentication data the user entered, and a model at rest. *)
Definition gdm_quiet : adapter.gdmConn :=
  {| adapter.EmitEvent := fun _ => None; adapter.SendPoll := inl [] |}.

Definition gdm_answering : adapter.gdmConn :=
  {| adapter.EmitEvent := fun _ => None;
     adapter.SendPoll := inl [adapter.EventData_IsAuthenticatedRequested (Some "secret")] |}.

Definition model_idle : adapter.gdmModel :=
  {| adapter.waitingAuth := false; adapter.conversationsStopped := false |}.

Definition model_waiting : adapter.gdmModel :=
  {| adapter.waitingAuth := true; adapter.conversationsStopped := false |}.

Definition model_stopped : adapter.gdmModel :=
  {| adapter.waitingAuth := false; adapter.conversationsStopped := true |}.

(** A decoder that takes the payload as the message when it starts with an
    opening brace and rejects it otherwise; quoting that puts a string of
    letters between double quotes. *)
Definition decode_braced (data : string) : string + string :=
  match data with
  | String "{" _ => inl data
  | _ => inr "invalid json data from provider"%string
  end.

Definition quote_plain (s : string) : string :=
  String.append adapter.dquote (String.append s adapter.dquote).

(** An environment in which nothing fails, a user with a remote default
    group and a local one, and a manager on an empty database. *)
Definition env_ok : users.Env :=
  {| users.now := 1700000000; users.expirationDate := 1690000000; users.cleanOnNew := true;
     users.runningUIDs := inl [0; 1000]; users.failOpen := None; users.failRemoveDb := None;
     users.failClear := None; users.failUpdateEntry := None; users.failDeleteUser := None;
     users.failLocalUpdate := None; users.failLocalClean := None;
     users.failLocalCleanUser := None; users.failRemoveFlag := None;
     users.failWriteFlag := None |}.

(** The same with a failing update of the local groups. *)
Definition env_local_fails : users.Env :=
  {| users.now := 1700000000; users.expirationDate := 1690000000; users.cleanOnNew := true;
     users.runningUIDs := inl [0; 1000]; users.failOpen := None; users.failRemoveDb := None;
     users.failClear := None; users.failUpdateEntry := None; users.failDeleteUser := None;
     users.failLocalUpdate := Some (goerrors.errorString "gpasswd failed");
     users.failLocalClean := None; users.failLocalCleanUser := None;
     users.failRemoveFlag := None; users.failWriteFlag := None |}.

Definition alice : users.UserInfo :=
  {| users.Name := "alice"; users.UID := 735577801; users.Gecos := "Alice";
     users.Dir := "/home/alice"; users.Shell := "/bin/bash";
     users.Groups := [ {| users.GroupName := "staff"; users.GID := Some 70000 |};
                       {| users.GroupName := "sudo"; users.GID := None |} ] |}.

Definition nameless : users.UserInfo :=
  {| users.Name := ""; users.UID := 70001; users.Gecos := ""; users.Dir := "/home/x";
     users.Shell := "/bin/sh";
     users.Groups := [ {| users.GroupName := "staff"; users.GID := Some 70000 |} ] |}.

Definition groupless : users.UserInfo :=
  {| users.Name := "bob"; users.UID := 70002; users.Gecos := ""; users.Dir := "/home/bob";
     users.Shell := "/bin/sh"; users.Groups := [] |}.

Definition local_first : users.UserInfo :=
  {| users.Name := "carol"; users.UID := 70003; users.Gecos := ""; users.Dir := "/home/carol";
     users.Shell := "/bin/sh";
     users.Groups := [ {| users.GroupName := "sudo"; users.GID := None |};
                       {| users.GroupName := "staff"; users.GID := Some 70000 |} ] |}.

Definition manager_empty : users.Manager :=
  {| users.cache := Some cache.emptyDb; users.dirtyFlagPath := "/var/cache/authd/.corrupted";
     users.files := ∅; users.localGroups := ∅; users.doClear := 0%nat;
     users.cleanupRoutine := true |}.

(** [filepath.Join] on a directory without trailing separator and a file
    name. *)
Definition join_plain (dir name : string) : string :=
  String.append dir (String.append "/" name).

(** A host whose database holds a garbled user and whose cache directory has
    the corruption flag, with a local group left by an earlier run. *)
Definition db_garbled : cache.Db :=
  {| cache.userByID := Some {[ "70001"%string := cache.Garbled "{oops" ]};
     cache.userByName := Some ∅; cache.groupByID := Some ∅; cache.groupByName := Some ∅;
     cache.userToGroups := Some ∅; cache.groupToUsers := Some ∅ |}.

Definition host_marked : users.Host :=
  {| users.dbFile := cache.Valid db_garbled;
     users.hostFiles := {[ "/var/cache/authd/.corrupted"%string ]};
     users.hostGroups := {[ "dave"%string := ["sudo"%string] ]} |}.

(** A running manager on the database with the garbled user, before the
    corruption has been noticed. *)
Definition manager_garbled : users.Manager :=
  {| users.cache := Some db_garbled; users.dirtyFlagPath := "/var/cache/authd/.corrupted";
     users.files := ∅; users.localGroups := {[ "dave"%string := ["sudo"%string] ]};
     users.doClear := 0%nat; users.cleanupRoutine := true |}.

(** A GDM peer that reports authentication data, a cancellation and a change
    of stage that nobody asked for. *)
Definition gdm_insisting : adapter.gdmConn :=
  {| adapter.EmitEvent := fun _ => None;
     adapter.SendPoll :=
       inl [ adapter.EventData_IsAuthenticatedRequested (Some "secret");
             adapter.EventData_IsAuthenticatedCancelled;
             adapter.EventData_StageChanged (Some adapter.Stage_brokerSelection) ] |}.

(** An error that wraps [ErrNeedsClearing] twice over, as a decorated
    failure of a transaction does. *)
Definition err_wrapped_clearing : goerrors.error :=
  goerrors.wrapError "failed to update user %q" [goerrors.argString "dave"]
    (goerrors.joinError [goerrors.errorString "bucket not found"; goerrors.ErrNeedsClearing]).

(** Environments in which one operation fails: clearing the database,
    cleaning the local groups, writing a user to the database, and opening
    the database with an error that asks for clearing. *)
Definition env_clear_fails : users.Env :=
  {| users.now := 1700000000; users.expirationDate := 1690000000; users.cleanOnNew := true;
     users.runningUIDs := inl [0; 1000]; users.failOpen := None; users.failRemoveDb := None;
     users.failClear := Some (goerrors.errorString "disk full");
     users.failUpdateEntry := None; users.failDeleteUser := None;
     users.failLocalUpdate := None; users.failLocalClean := None;
     users.failLocalCleanUser := None; users.failRemoveFlag := None;
     users.failWriteFlag := None |}.

Definition env_clean_fails : users.Env :=
  {| users.now := 1700000000; users.expirationDate := 1690000000; users.cleanOnNew := true;
     users.runningUIDs := inl [0; 1000]; users.failOpen := None; users.failRemoveDb := None;
     users.failClear := None; users.failUpdateEntry := None; users.failDeleteUser := None;
     users.failLocalUpdate := None;
     users.failLocalClean := Some (goerrors.errorString "gpasswd failed");
     users.failLocalCleanUser := None; users.failRemoveFlag := None;
     users.failWriteFlag := None |}.

Definition env_write_fails : users.Env :=
  {| users.now := 1700000000; users.expirationDate := 1690000000; users.cleanOnNew := true;
     users.runningUIDs := inl [0; 1000]; users.failOpen := None; users.failRemoveDb := None;
     users.failClear := None; users.failUpdateEntry := Some err_wrapped_clearing;
     users.failDeleteUser := None; users.failLocalUpdate := None; users.failLocalClean := None;
     users.failLocalCleanUser := None; users.failRemoveFlag := None;
     users.failWriteFlag := None |}.

Definition env_unopenable : users.Env :=
  {| users.now := 1700000000; users.expirationDate := 1690000000; users.cleanOnNew := false;
     users.runningUIDs := inl [0; 1000];
     users.failOpen := Some (goerrors.joinError [goerrors.ErrNeedsClearing;
                                                 goerrors.errorString "timeout"]);
     users.failRemoveDb := None; users.failClear := None; users.failUpdateEntry := None;
     users.failDeleteUser := None; users.failLocalUpdate := None; users.failLocalClean := None;
     users.failLocalCleanUser := None; users.failRemoveFlag := None;
     users.failWriteFlag := None |}.

(** The manager on the garbled database once the corruption flag is there. *)
Definition manager_flagged : users.Manager :=
  {| users.cache := Some db_garbled; users.dirtyFlagPath := "/var/cache/authd/.corrupted";
     users.files := {[ "/var/cache/authd/.corrupted"%string ]};
     users.localGroups := {[ "dave"%string := ["sudo"%string] ]};
     users.doClear := 1%nat; users.cleanupRoutine := true |}.

(** A host whose database file is no database, without the flag. *)
Definition host_invalid : users.Host :=
  {| users.dbFile := cache.Invalid "not a database"; users.hostFiles := ∅;
     users.hostGroups := {[ "dave"%string := ["sudo"%string] ]} |}.

(** The manager after [alice] has been stored. *)
Definition manager_alice : users.Manager :=
  users.set_localGroups
    (fst (localgroups.Update None (users.localGroups manager_empty) (users.Name alice)
            (users.localGroupNames alice)))
    (users.set_cache
       (Some (fst (cache.UpdateUserEntry None cache.emptyDb
                     (cache.NewUserDB (users.now env_ok) (users.Name alice) (users.UID alice)
                        70000 (users.Gecos alice) (users.Dir alice) (users.Shell alice))
                     (users.persistedGroups alice))))
       manager_empty).

(** A user whose second group has no name. *)
Definition unnamed_group : users.UserInfo :=
  {| users.Name := "erin"; users.UID := 70005; users.Gecos := ""; users.Dir := "/home/erin";
     users.Shell := "/bin/sh";
     users.Groups := [ {| users.GroupName := "staff"; users.GID := Some 70000 |};
                       {| users.GroupName := ""; users.GID := Some 70009 |} ] |}.

(** A process directory: two processes, a process that is gone, a file that
    is no process, and one with a process whose owner cannot be read. *)
Definition proc_entries : list procdir.DirEntry :=
  [ {| procdir.Name := "1"; procdir.Info := procdir.Stat_t 0 |};
    {| procdir.Name := "cpuinfo"; procdir.Info := procdir.NotStat_t "cpuinfo" |};
    {| procdir.Name := "4242";
       procdir.Info := procdir.Vanished (goerrors.errorString "no such file or directory") |};
    {| procdir.Name := "977"; procdir.Info := procdir.Stat_t 1000 |} ].

Definition proc_unreadable : list procdir.DirEntry :=
  proc_entries ++
  [ {| procdir.Name := "31"; procdir.Info :=
         procdir.Unreadable (goerrors.errorString "permission denied") |} ].

(** A GDM peer that refuses every event. *)
Definition gdm_refusing : adapter.gdmConn :=
  {| adapter.EmitEvent := fun _ => Some "broken pipe"%string; adapter.SendPoll := inl [] |}.
(** * Properties *)

(** ** SHA-256 test vectors *)

(** The first and the last round constant, and the first word of the initial
    hash value. *)
Example round_constants :
  nth 0 sha256.K 0 = 0x428a2f98 /\ nth 63 sha256.K 0 = 0xc67178f2 /\
  length sha256.K = 64%nat /\ nth 0 sha256.H0 0 = 0x6a09e667.
Proof. repeat split. Qed.

(** The digests of the empty string, of "abc" and of a message of two blocks
    are the published ones. *)
Example Sum256_empty :
  sha256.Sum256 [] =
  [ 0xe3; 0xb0; 0xc4; 0x42; 0x98; 0xfc; 0x1c; 0x14; 0x9a; 0xfb; 0xf4; 0xc8; 0x99; 0x6f; 0xb9; 0x24;
    0x27; 0xae; 0x41; 0xe4; 0x64; 0x9b; 0x93; 0x4c; 0xa4; 0x95; 0x99; 0x1b; 0x78; 0x52; 0xb8; 0x55 ].
Proof. vm_compute. reflexivity. Qed.

Example Sum256_abc :
  sha256.Sum256 (gostring.bytes "abc") =
  [ 0xba; 0x78; 0x16; 0xbf; 0x8f; 0x01; 0xcf; 0xea; 0x41; 0x41; 0x40; 0xde; 0x5d; 0xae; 0x22; 0x23;
    0xb0; 0x03; 0x61; 0xa3; 0x96; 0x17; 0x7a; 0x9c; 0xb4; 0x10; 0xff; 0x61; 0xf2; 0x00; 0x15; 0xad ].
Proof. vm_compute. reflexivity. Qed.

Example Sum256_two_blocks :
  sha256.Sum256 (gostring.bytes "abcdbcdecdefdefgefghfghighijhijkijkljklmklmnlmnomnopnopq") =
  [ 0x24; 0x8d; 0x6a; 0x61; 0xd2; 0x06; 0x38; 0xb8; 0xe5; 0xc0; 0x26; 0x93; 0x0c; 0x3e; 0x60; 0x39;
    0xa3; 0x3c; 0xe4; 0x59; 0x64; 0xff; 0x21; 0x67; 0xf6; 0xec; 0xed; 0xd4; 0x19; 0xdb; 0x06; 0xc1 ].
Proof. vm_compute. reflexivity. Qed.

Example GenerateID_alice :
  users.GenerateID gostrings.dotless_ToLower 0 "Alice" = Some 735577801.
Proof. vm_compute. reflexivity. Qed.

Example GenerateID_rehash :
  users.GenerateID gostrings.dotless_ToLower 0 "user40672" = None /\
  users.GenerateID gostrings.dotless_ToLower 1 "user40672" = Some 1549039227.
Proof. split; vm_compute; reflexivity. Qed.

(** ** Bytes of strings *)

Lemma bytes_range (s : string) : Forall (fun z => 0 <= z < 256) (gostring.bytes s).
Proof.
  unfold gostring.bytes. apply List.Forall_forall. intros z Hz.
  apply in_map_iff in Hz. destruct Hz as [c [<- _]].
  pose proof (N_ascii_bounded c). lia.
Qed.

Lemma bytes_of_bytes (l : list Z) :
  Forall (fun z => 0 <= z < 256) l -> gostring.bytes (gostring.of_bytes l) = l.
Proof.
  intros Hl. unfold gostring.bytes, gostring.of_bytes.
  rewrite list_ascii_of_string_of_list_ascii, map_map.
  induction Hl as [|z l Hz _ IH]; simpl; [reflexivity|].
  rewrite IH. f_equal.
  rewrite N_ascii_embedding by lia. lia.
Qed.

(** ** ASCII case mapping *)

Lemma lowerByte_upperByte (c : Z) : gostrings.lowerByte (gostrings.upperByte c) = gostrings.lowerByte c.
Proof.
  unfold gostrings.lowerByte, gostrings.upperByte.
  repeat match goal with
         | |- context [if ?b then _ else _] => destruct b eqn:?
         end; lia.
Qed.

Lemma upperByte_ascii (b : list Z) :
  Forall (fun z => 0 <= z < 256) b ->
  gostrings.isASCII b = true ->
  Forall (fun z => 0 <= z < 256) (map gostrings.upperByte b) /\
  gostrings.isASCII (map gostrings.upperByte b) = true.
Proof.
  unfold gostrings.isASCII, utf8.RuneSelf.
  induction 1 as [|z l Hz _ IH]; simpl; [auto|].
  intros Ha. apply andb_true_iff in Ha. destruct Ha as [Hz' Hl].
  destruct (IH Hl) as [IH1 IH2]. rewrite IH2.
  assert (0 <= gostrings.upperByte z < 128) as Hu.
  { unfold gostrings.upperByte. destruct (_ && _) eqn:E; lia. }
  split; [constructor; [lia|exact IH1]|].
  apply andb_true_iff. split; [lia|reflexivity].
Qed.

Lemma ToLower_ToUpper_ascii (lower upper : Z -> Z) (s : string) :
  gostrings.isASCII (gostring.bytes s) = true ->
  gostrings.ToLower lower (gostrings.ToUpper upper s) = gostrings.ToLower lower s.
Proof.
  intros Ha. unfold gostrings.ToLower, gostrings.ToUpper, gostrings.ToUpperBytes.
  rewrite Ha.
  destruct (upperByte_ascii _ (bytes_range s) Ha) as [Hr Hu].
  rewrite (bytes_of_bytes _ Hr).
  unfold gostrings.ToLowerBytes. rewrite Hu, Ha, map_map.
  f_equal. apply map_ext. intros c. apply lowerByte_upperByte.
Qed.

(** ** The rehash loop *)

Lemma number_bounds (hash : list Z) : 0 <= users.number hash < users.maxID.
Proof. unfold users.number, users.maxID. apply Z.mod_pos_bound. lia. Qed.

Lemma rehash_bounds (fuel : nat) (hash : list Z) (n : Z) :
  users.rehash fuel hash = Some n -> users.minID <= n < users.maxID.
Proof.
  revert hash. induction fuel as [|fuel IH]; intros hash; simpl;
    destruct (users.number hash <? users.minID) eqn:E; try discriminate.
  - intros [= <-]. pose proof (number_bounds hash). lia.
  - apply IH.
  - intros [= <-]. pose proof (number_bounds hash). lia.
Qed.

Lemma rehash_exits (k : nat) (hash : list Z) :
  users.minID <= users.number (Nat.iter k sha256.Sum256 hash) ->
  exists n, forall fuel, (k <= fuel)%nat -> users.rehash fuel hash = Some n.
Proof.
  revert hash. induction k as [|k IH]; intros hash Hk.
  - exists (users.number hash). intros fuel _. simpl in Hk.
    destruct fuel; simpl; destruct (users.number hash <? users.minID) eqn:E;
      try reflexivity; lia.
  - destruct (users.number hash <? users.minID) eqn:E.
    + rewrite Nat.iter_succ_r in Hk. destruct (IH _ Hk) as [n Hn].
      exists n. intros [|fuel] Hf; [lia|]. simpl. rewrite E. apply Hn. lia.
    + exists (users.number hash). intros fuel _.
      destruct fuel; simpl; rewrite E; reflexivity.
Qed.

Lemma rehash_more_fuel (fuel fuel' : nat) (hash : list Z) (n : Z) :
  users.rehash fuel hash = Some n -> (fuel <= fuel')%nat -> users.rehash fuel' hash = Some n.
Proof.
  revert hash fuel'. induction fuel as [|fuel IH]; intros hash fuel'; simpl;
    destruct (users.number hash <? users.minID) eqn:E; try discriminate.
  - intros H _. destruct fuel'; simpl; rewrite E; exact H.
  - intros H Hf. destruct fuel' as [|fuel']; [lia|]. simpl. rewrite E. apply IH; [exact H | lia].
  - intros H _. destruct fuel'; simpl; rewrite E; exact H.
Qed.

(** X23: when the number tested after some [k] rehashes of the digest of the
    lowercased string is at least [minID], [GenerateID] returns: every run
    allowed [k] rehashes or more returns one and the same ID, that ID lies in
    [65536, 2^31 - 1), and a run allowed fewer rehashes returns that ID or
    has not returned yet. *)
Theorem GenerateID_exits_in_range (unicode_ToLower : Z -> Z) (s : string) (k : nat) :
  users.minID <= users.attempt unicode_ToLower s k ->
  exists n,
    65536 <= n < 2 ^ 31 - 1 /\
    (forall fuel, (k <= fuel)%nat -> users.GenerateID unicode_ToLower fuel s = Some n) /\
    (forall fuel, users.GenerateID unicode_ToLower fuel s = Some n \/
                  users.GenerateID unicode_ToLower fuel s = None).
Proof.
  intros Hk. destruct (rehash_exits k _ Hk) as [n Hn].
  exists n. split; [|split].
  - pose proof (rehash_bounds k _ n (Hn k (Nat.le_refl k))) as Hb.
    unfold users.minID, users.maxID in Hb. lia.
  - exact Hn.
  - intros fuel. unfold users.GenerateID.
    destruct (users.rehash fuel (users.firstHash unicode_ToLower s)) as [n'|] eqn:E; [|auto].
    left. pose proof (rehash_more_fuel _ (Nat.max fuel k) _ _ E (Nat.le_max_l fuel k)) as H1.
    pose proof (Hn (Nat.max fuel k) (Nat.le_max_r fuel k)) as H2.
    unfold users.GenerateID in H2. congruence.
Qed.

(** C6 (amended): on strings of ASCII bytes, [GenerateID] ignores case: the
    ID of the upper-cased string is the ID of the string. *)
Theorem GenerateID_ascii_case (unicode_ToLower unicode_ToUpper : Z -> Z) (fuel : nat) (s : string) :
  gostrings.isASCII (gostring.bytes s) = true ->
  users.GenerateID unicode_ToLower fuel (gostrings.ToUpper unicode_ToUpper s) =
  users.GenerateID unicode_ToLower fuel s.
Proof.
  intros Ha. unfold users.GenerateID, users.firstHash.
  rewrite (ToLower_ToUpper_ascii _ _ _ Ha). reflexivity.
Qed.

(** ** The language selector of a broker session *)

Example TrimSuffix_examples :
  gostrings.TrimSuffix "en_US.UTF-8" ".UTF-8" = "en_US"%string /\
  gostrings.TrimSuffix "C" ".UTF-8" = "C"%string /\
  gostrings.TrimSuffix "de_DE.UTF-8.UTF-8" ".UTF-8" = "de_DE.UTF-8"%string /\
  gostrings.TrimSuffix "en_US.utf8" ".UTF-8" = "en_US.utf8"%string.
Proof. repeat split. Qed.

Lemma langLoop_last (environ : gmap string string) :
  pam.langLoop environ = pam.lastNonEmptyLang environ.
Proof.
  unfold pam.langLoop, pam.lastNonEmptyLang. simpl.
  destruct (String.eqb (pam.Getenv environ "LC_ALL") ""); simpl; [|reflexivity].
  destruct (String.eqb (pam.Getenv environ "LC_MESSAGES") ""); simpl; [|reflexivity].
  destruct (String.eqb (pam.Getenv environ "LANG") ""); reflexivity.
Qed.

(** C7 (amended): for a broker other than "local", exactly one request is
    sent, and its [Lang] is the last non-empty value among LANG, LC_MESSAGES
    and LC_ALL (so LC_ALL wins over LC_MESSAGES, which wins over LANG), "C"
    when all three are empty, without one trailing ".UTF-8". *)
Theorem startBrokerSession_lang (environ : gmap string string)
    (SelectBroker : pam.SBRequest -> pam.SBResponse + string) (brokerID username : string) :
  brokerID <> "local"%string ->
  snd (pam.startBrokerSession environ SelectBroker brokerID username) =
  [ {| pam.BrokerId := brokerID; pam.Username := username;
       pam.Lang := gostrings.TrimSuffix (pam.lastNonEmptyLang environ) ".UTF-8" |} ].
Proof.
  intros Hb. unfold pam.startBrokerSession.
  apply String.eqb_neq in Hb. rewrite Hb, langLoop_last.
  destruct (SelectBroker _) as [resp|err]; [|reflexivity].
  destruct (String.eqb (pam.SessionId resp) ""); [reflexivity|].
  destruct (String.eqb (pam.EncryptionKey resp) ""); reflexivity.
Qed.

Lemma startBrokerSession_lang_witness :
  snd (pam.startBrokerSession environ_fr broker_ok "remote1" "alice") =
  [ {| pam.BrokerId := "remote1"; pam.Username := "alice";
       pam.Lang := gostrings.TrimSuffix (pam.lastNonEmptyLang environ_fr) ".UTF-8" |} ].
Proof. apply (startBrokerSession_lang environ_fr broker_ok "remote1" "alice"). discriminate. Defined.

(** With LANG and LC_ALL both set, the request carries LC_ALL's language,
    not LANG's, the first non-empty one. *)
Lemma startBrokerSession_lang_not_first :
  pam.startBrokerSession environ_fr broker_ok "remote1" "alice" =
    (pam.SessionStarted "session-1" "key-1",
     [ {| pam.BrokerId := "remote1"; pam.Username := "alice"; pam.Lang := "fr_FR" |} ]) /\
  gostrings.TrimSuffix (pam.firstNonEmptyLang environ_fr) ".UTF-8" = "en_US"%string.
Proof. split; vm_compute; reflexivity. Qed.

(** ** The GDM model: one pending authentication *)

Lemma last_cons {A} (l : list A) (a d : A) : List.last (a :: l) d = List.last l a.
Proof.
  revert a d. induction l as [|b l IH]; intros a d; [reflexivity|].
  change (List.last (a :: b :: l) d) with (List.last (b :: l) d).
  rewrite (IH b d), (IH b a). reflexivity.
Qed.

Lemma pollLoop_waiting (results : list adapter.EventData) (m : adapter.gdmModel)
    (commands : list adapter.Cmd) :
  let m' := fst (adapter.pollLoop m commands results) in
  adapter.conversationsStopped m' = adapter.conversationsStopped m /\
  (adapter.waitingAuth m = false -> adapter.waitingAuth m' = false).
Proof.
  revert m commands. induction results as [|r rest IH]; intros m commands; simpl.
  - auto.
  - destruct r as [u|b|[b|]|a|[a|]|l| |[i|]| | |[s|]|a s]; simpl;
      repeat match goal with
             | |- context [if ?b then _ else _] => destruct b eqn:?; simpl
             end;
      try match goal with
          | |- context [adapter.pollLoop ?m1 ?c rest] =>
              destruct (IH m1 c) as [H1 H2]; simpl in H1, H2
          end;
      split; intros; simpl in *; try congruence; auto.
Qed.

Section UpdateFacts.

Variable dataToMsg : string -> string + string.
Variable fmt_q : string -> string.
Variable json_Marshal : string -> string.

#[local] Abbreviation Update := (adapter.Update dataToMsg fmt_q json_Marshal).
#[local] Abbreviation run := (adapter.run dataToMsg fmt_q json_Marshal).

Lemma Update_starts (gdm : adapter.gdmConn) (m : adapter.gdmModel) (msg : adapter.Msg) :
  let '(m', _, emitted) := Update gdm m msg in
  (adapter.pending m + adapter.starts emitted =
     adapter.clears (m, m', emitted) + adapter.pending m')%nat /\
  (adapter.starts emitted <= 1)%nat /\
  (adapter.starts emitted = 1%nat ->
     adapter.waitingAuth m = false /\ adapter.waitingAuth m' = true).
Proof.
  unfold adapter.Update, adapter.clears, adapter.pending, adapter.starts.
  destruct m as [w c]. simpl.
  destruct c; [destruct w; simpl; repeat split; intros; try lia; discriminate|].
  destruct msg; simpl;
    try (destruct w; simpl; repeat split; intros; try lia; discriminate).
  - (* gdmPollDone *)
    unfold adapter.pollGdm. destruct (adapter.SendPoll gdm) as [results|err]; simpl.
    + pose proof (pollLoop_waiting results
        {| adapter.waitingAuth := w; adapter.conversationsStopped := false |}
        [adapter.sendEvent adapter.gdmPollDone]) as [_ Hw].
      destruct (adapter.pollLoop _ _ results) as [m' poll]. simpl in *.
      destruct w, (adapter.waitingAuth m') eqn:E; simpl; repeat split; intros; try lia;
        try discriminate.
    + destruct w; simpl; repeat split; intros; try lia; discriminate.
  - (* isAuthenticatedResultReceived *)
    destruct (dataToMsg msg) as [authMsg|err];
      [|destruct w; simpl; repeat split; intros; try lia; discriminate].
    repeat match goal with
           | |- context [String.eqb ?a ?b] => destruct (String.eqb a b)
           end; destruct w; simpl; repeat split; intros; try lia; discriminate.
Qed.

Lemma run_count (inputs : list (adapter.gdmConn * adapter.Msg)) (m : adapter.gdmModel) :
  (adapter.pending m + adapter.total (fun s => adapter.starts (snd s)) (run m inputs) =
   adapter.total adapter.clears (run m inputs) +
   adapter.pending (adapter.lastModel m (run m inputs)))%nat.
Proof.
  revert m. induction inputs as [|[gdm msg] rest IH]; intros m.
  - simpl. unfold adapter.lastModel. simpl. lia.
  - simpl. pose proof (Update_starts gdm m msg) as H.
    destruct (Update gdm m msg) as [[m' cmd] emitted]. destruct H as [H _].
    specialize (IH m'). cbn [adapter.total fold_right snd] in *.
    fold (adapter.total (fun s => adapter.starts (snd s)) (run m' rest)).
    fold (adapter.total adapter.clears (run m' rest)).
    replace (adapter.lastModel m ((m, m', emitted) :: run m' rest))
      with (adapter.lastModel m' (run m' rest)).
    + lia.
    + unfold adapter.lastModel. cbn [map fst snd]. symmetry. apply last_cons.
Qed.

End UpdateFacts.

Lemma startAuthentication_accepted (dataToMsg : string -> string + string)
    (fmt_q json_Marshal : string -> string) (gdm : adapter.gdmConn) (m : adapter.gdmModel) :
  adapter.conversationsStopped m = false ->
  adapter.waitingAuth m = false ->
  adapter.Update dataToMsg fmt_q json_Marshal gdm m adapter.startAuthentication =
    (adapter.set_waitingAuth true m,
     adapter.sendEvent (adapter.emitEventSync gdm adapter.EventData_StartAuthentication),
     [adapter.EventData_StartAuthentication]).
Proof. intros Hc Hw. unfold adapter.Update. rewrite Hc, Hw. reflexivity. Qed.

(** C1: while an authentication it has started is pending, the model rejects
    a further start request: nothing is emitted to GDM, no command is issued
    and the model is unchanged; and in every run from such a model, each
    [StartAuthentication] event emitted is matched by an earlier step that
    took the model out of waiting, so that no two are outstanding at once. *)
Theorem startAuthentication_single_pending (dataToMsg : string -> string + string)
    (fmt_q json_Marshal : string -> string) (m : adapter.gdmModel) :
  adapter.waitingAuth m = true ->
  (forall gdm, adapter.Update dataToMsg fmt_q json_Marshal gdm m adapter.startAuthentication =
                 (m, adapter.cmdNil, [])) /\
  (forall inputs,
     (adapter.total (fun s => adapter.starts (snd s))
                    (adapter.run dataToMsg fmt_q json_Marshal m inputs) <=
      adapter.total adapter.clears (adapter.run dataToMsg fmt_q json_Marshal m inputs))%nat).
Proof.
  intros Hw. split.
  - intros gdm. unfold adapter.Update. rewrite Hw.
    destruct (adapter.conversationsStopped m); reflexivity.
  - intros inputs.
    pose proof (run_count dataToMsg fmt_q json_Marshal inputs m) as H.
    unfold adapter.pending in H at 1. rewrite Hw in H.
    assert (adapter.pending
              (adapter.lastModel m (adapter.run dataToMsg fmt_q json_Marshal m inputs)) <= 1)%nat.
    { unfold adapter.pending. destruct (adapter.waitingAuth (adapter.lastModel _ _)); lia. }
    lia.
Qed.

Lemma startAuthentication_single_pending_witness :
  (forall gdm, adapter.Update decode_braced quote_plain quote_plain gdm model_waiting
                 adapter.startAuthentication = (model_waiting, adapter.cmdNil, [])) /\
  (forall inputs,
     (adapter.total (fun s => adapter.starts (snd s))
                    (adapter.run decode_braced quote_plain quote_plain model_waiting inputs) <=
      adapter.total adapter.clears
                    (adapter.run decode_braced quote_plain quote_plain model_waiting inputs))%nat).
Proof.
  apply (startAuthentication_single_pending decode_braced quote_plain quote_plain model_waiting).
  reflexivity.
Defined.

(** A run: a start, a second start while waiting, a poll in which GDM hands
    over the authentication data, a third start. Only the first and the third
    reach GDM. *)
Example run_three_starts :
  map snd (adapter.run decode_braced quote_plain quote_plain model_idle
             [ (gdm_quiet, adapter.startAuthentication);
               (gdm_quiet, adapter.startAuthentication);
               (gdm_answering, adapter.gdmPollDone);
               (gdm_quiet, adapter.startAuthentication) ]) =
  [ [adapter.EventData_StartAuthentication]; []; []; [adapter.EventData_StartAuthentication] ].
Proof. reflexivity. Qed.

(** ** The GDM model: authentication results *)

(** C2 (amended): while conversations are not stopped and the message of the
    result decodes, a result whose access is none of the five known ones is
    replaced by a result with access [denied] whose message is the JSON
    object with the text [Access %q is not valid]; [granted], [denied],
    [retry] and [next] are emitted to GDM with the access unchanged and the
    decoded message; [cancelled] becomes a cancellation, which is emitted with
    access [cancelled]. *)
Theorem authResult_access (dataToMsg : string -> string + string)
    (fmt_q json_Marshal : string -> string) (gdm : adapter.gdmConn) (m : adapter.gdmModel)
    (access msg authMsg : string) :
  adapter.conversationsStopped m = false ->
  dataToMsg msg = inl authMsg ->
  let Update := adapter.Update dataToMsg fmt_q json_Marshal gdm in
  (~ adapter.known_access access ->
     Update m (adapter.isAuthenticatedResultReceived access msg) =
       (m, adapter.sendEvent (adapter.isAuthenticatedResultReceived brokers.AuthDenied
             (adapter.invalidAccessMsg fmt_q json_Marshal access)), [])) /\
  (adapter.known_access access -> access <> brokers.AuthCancelled ->
     Update m (adapter.isAuthenticatedResultReceived access msg) =
       (m, adapter.sendEvent (adapter.emitEventSync gdm (adapter.EventData_AuthEvent access authMsg)),
        [adapter.EventData_AuthEvent access authMsg])) /\
  (access = brokers.AuthCancelled ->
     Update m (adapter.isAuthenticatedResultReceived access msg) =
       (m, adapter.sendEvent (adapter.isAuthenticatedCancelled ""), []) /\
     Update m (adapter.isAuthenticatedCancelled "") =
       (adapter.set_waitingAuth false m,
        adapter.sendEvent (adapter.emitEventSync gdm
          (adapter.EventData_AuthEvent brokers.AuthCancelled "")),
        [adapter.EventData_AuthEvent brokers.AuthCancelled ""])).
Proof.
  intros Hc Hd Update. subst Update. unfold adapter.Update. rewrite Hc, Hd.
  unfold adapter.known_access. split; [|split].
  - intros Hk.
    destruct (String.eqb_spec access brokers.AuthGranted); [tauto|].
    destruct (String.eqb_spec access brokers.AuthDenied); [tauto|].
    destruct (String.eqb_spec access brokers.AuthCancelled); [tauto|].
    destruct (String.eqb_spec access brokers.AuthRetry); [tauto|].
    destruct (String.eqb_spec access brokers.AuthNext); [tauto|].
    reflexivity.
  - intros Hk Hn.
    destruct (String.eqb_spec access brokers.AuthGranted); [reflexivity|].
    destruct (String.eqb_spec access brokers.AuthDenied); [reflexivity|].
    destruct (String.eqb_spec access brokers.AuthCancelled); [contradiction|].
    destruct (String.eqb_spec access brokers.AuthRetry); [reflexivity|].
    destruct (String.eqb_spec access brokers.AuthNext); [reflexivity|].
    tauto.
  - intros ->. split; reflexivity.
Qed.

Lemma authResult_access_witness :
  let Update := adapter.Update decode_braced quote_plain quote_plain gdm_quiet in
  (~ adapter.known_access "bogus" ->
     Update model_waiting (adapter.isAuthenticatedResultReceived "bogus" "{}") =
       (model_waiting, adapter.sendEvent (adapter.isAuthenticatedResultReceived brokers.AuthDenied
             (adapter.invalidAccessMsg quote_plain quote_plain "bogus")), [])) /\
  (adapter.known_access "bogus" -> "bogus"%string <> brokers.AuthCancelled ->
     Update model_waiting (adapter.isAuthenticatedResultReceived "bogus" "{}") =
       (model_waiting,
        adapter.sendEvent (adapter.emitEventSync gdm_quiet (adapter.EventData_AuthEvent "bogus" "{}")),
        [adapter.EventData_AuthEvent "bogus" "{}"])) /\
  ("bogus"%string = brokers.AuthCancelled ->
     Update model_waiting (adapter.isAuthenticatedResultReceived "bogus" "{}") =
       (model_waiting, adapter.sendEvent (adapter.isAuthenticatedCancelled ""), []) /\
     Update model_waiting (adapter.isAuthenticatedCancelled "") =
       (adapter.set_waitingAuth false model_waiting,
        adapter.sendEvent (adapter.emitEventSync gdm_quiet
          (adapter.EventData_AuthEvent brokers.AuthCancelled "")),
        [adapter.EventData_AuthEvent brokers.AuthCancelled ""])).
Proof.
  apply (authResult_access decode_braced quote_plain quote_plain gdm_quiet model_waiting
           "bogus" "{}" "{}"); reflexivity.
Defined.

(** What the five cases come to on sample results. *)
Example authResult_samples :
  fst (adapter.Update decode_braced quote_plain quote_plain gdm_quiet model_waiting
         (adapter.isAuthenticatedResultReceived "bogus" "{}")) =
    (model_waiting,
     adapter.sendEvent (adapter.isAuthenticatedResultReceived "denied"
       (String.append "{" (String.append adapter.dquote (String.append "message"
         (String.append adapter.dquote (String.append ": "
           (String.append (quote_plain (String.append "Access "
              (String.append (quote_plain "bogus") " is not valid"))) "}")))))))) /\
  snd (adapter.Update decode_braced quote_plain quote_plain gdm_quiet model_waiting
         (adapter.isAuthenticatedResultReceived "granted" "{}")) =
    [adapter.EventData_AuthEvent "granted" "{}"] /\
  snd (adapter.Update decode_braced quote_plain quote_plain gdm_quiet model_waiting
         (adapter.isAuthenticatedResultReceived "next" "{}")) =
    [adapter.EventData_AuthEvent "next" "{}"].
Proof. repeat split. Qed.

(** An unknown access is not turned into [denied] when conversations are
    stopped (the result is dropped) nor when its message does not decode (a
    system error is reported instead). *)
Lemma authResult_unknown_not_denied :
  adapter.Update decode_braced quote_plain quote_plain gdm_quiet model_stopped
    (adapter.isAuthenticatedResultReceived "bogus" "{}") =
    (model_stopped, adapter.cmdNil, []) /\
  adapter.Update decode_braced quote_plain quote_plain gdm_quiet model_idle
    (adapter.isAuthenticatedResultReceived "bogus" "oops") =
    (model_idle,
     adapter.sendEvent (adapter.pamError adapter.ErrSystem "invalid json data from provider"), []).
Proof. split; reflexivity. Qed.

(** ** ID generation: witnesses *)

Lemma GenerateID_ascii_case_witness :
  users.GenerateID gostrings.dotless_ToLower 0
    (gostrings.ToUpper gostrings.dotless_ToUpper "Alice") =
  users.GenerateID gostrings.dotless_ToLower 0 "Alice".
Proof.
  apply (GenerateID_ascii_case gostrings.dotless_ToLower gostrings.dotless_ToUpper 0 "Alice").
  reflexivity.
Defined.

(** The string made of U+0131 (bytes C4 B1) and its upper case, the ASCII
    letter I, get different IDs. *)
Lemma GenerateID_case_sensitive :
  gostrings.ToUpper gostrings.dotless_ToUpper (gostring.of_bytes [0xC4; 0xB1]) = "I"%string /\
  users.GenerateID gostrings.dotless_ToLower 0 (gostring.of_bytes [0xC4; 0xB1]) = Some 1414250920 /\
  users.GenerateID gostrings.dotless_ToLower 0
    (gostrings.ToUpper gostrings.dotless_ToUpper (gostring.of_bytes [0xC4; 0xB1])) = Some 1585257331.
Proof. repeat split; vm_compute; reflexivity. Qed.

Lemma GenerateID_exits_in_range_witness :
  exists n,
    65536 <= n < 2 ^ 31 - 1 /\
    (forall fuel, (1 <= fuel)%nat ->
                  users.GenerateID gostrings.dotless_ToLower fuel "user40672" = Some n) /\
    (forall fuel, users.GenerateID gostrings.dotless_ToLower fuel "user40672" = Some n \/
                  users.GenerateID gostrings.dotless_ToLower fuel "user40672" = None).
Proof.
  apply (GenerateID_exits_in_range gostrings.dotless_ToLower "user40672" 1).
  apply Z.leb_le. vm_compute. reflexivity.
Defined.

(** ** Lookups of users *)

Lemma getUser_outcome (c : cache.Db) (bucketName : string) (key : Z + string) :
  users.lookupOutcome (cache.userBucket c bucketName) (cache.keyBytes key)
    (cache.passwd (fst (cache.getUser c bucketName key)), snd (cache.getUser c bucketName key)).
Proof.
  unfold users.lookupOutcome, cache.getUser, cache.getBucket, cache.getFromBucket.
  destruct (cache.userBucket c bucketName) as [b|]; simpl.
  - destruct (b !! cache.keyBytes key) as [[u|raw]|]; simpl.
    + reflexivity.
    + eexists. split; [reflexivity|]. reflexivity.
    + eexists. split; [reflexivity|]. split; reflexivity.
  - eexists. split; [reflexivity|]. reflexivity.
Qed.

(** C4: [UserByID] and [UserByName] return the stored record, or, when the
    key has no entry, an error that is a [NoDataFoundError] and does not ask
    for clearing, or, when the bucket is missing or the entry does not
    decode, an error joined with [ErrNeedsClearing]. In the manager the
    not-found error leaves the flag file and the clear requests as they are,
    and an error joined with [ErrNeedsClearing] raises both. *)
Theorem UserBy_outcomes (c : cache.Db) (uid : Z) (name : string) :
  users.lookupOutcome (cache.userByID c) (cache.Itoa uid) (cache.UserByID c uid) /\
  users.lookupOutcome (cache.userByName c) name (cache.UserByName c name) /\
  (forall env m,
     users.cache m = Some c ->
     match users.UserByID env m uid with
     | Some (m', _, None) => m' = m
     | Some (m', _, Some e) =>
         if goerrors.Is_ErrNeedsClearing e
         then m' = users.requestClearDatabase env m
         else m' = m /\ goerrors.Is_NoDataFoundError e = true
     | None => False
     end).
Proof.
  split; [|split].
  - pose proof (getUser_outcome c cache.userByIDBucketName (inl uid)) as H.
    unfold cache.UserByID. destruct (cache.getUser _ _ _) as [u err]. exact H.
  - pose proof (getUser_outcome c cache.userByNameBucketName (inr name)) as H.
    unfold cache.UserByName. destruct (cache.getUser _ _ _) as [u err]. exact H.
  - intros env m Hc. unfold users.UserByID. rewrite Hc.
    pose proof (getUser_outcome c cache.userByIDBucketName (inl uid)) as H.
    unfold cache.UserByID. destruct (cache.getUser _ _ _) as [u [e|]]; simpl in *; [|reflexivity].
    unfold users.lookupOutcome in H.
    destruct (cache.userBucket _ _) as [b|].
    + destruct (b !! _) as [[u'|raw]|].
      * discriminate.
      * destruct H as [e' [Heq He]]. inversion Heq; subst e'. rewrite He. simpl. rewrite He. reflexivity.
      * destruct H as [e' [Heq [Hn He]]]. inversion Heq; subst e'. rewrite He. simpl. rewrite He.
        split; [reflexivity|exact Hn].
    + destruct H as [e' [Heq He]]. inversion Heq; subst e'. rewrite He. simpl. rewrite He. reflexivity.
Qed.

(** Lookups on a database with one garbled user: the garbled entry asks for
    clearing, an absent one is only not found. *)
Example UserByID_samples :
  snd (cache.UserByID db_garbled 70001) =
    Some (goerrors.joinError
            [goerrors.ErrNeedsClearing;
             goerrors.Errorf "can't unmarshal bucket %q for key %v: %v"
               [goerrors.argString "UserByID"; goerrors.argString "70001";
                goerrors.argString "{oops"]]) /\
  snd (cache.UserByID db_garbled 70002) = Some (goerrors.NoDataFoundError "70002" "UserByID") /\
  snd (cache.UserByName db_garbled "alice") = Some (goerrors.NoDataFoundError "alice" "UserByName").
Proof. repeat split; vm_compute; reflexivity. Qed.

(** ** UpdateUser: rejected users *)

(** C8: a user with an empty name or without groups is refused with an
    error, and the manager, its database, its files and the local groups are
    left as they were. *)
Theorem UpdateUser_rejects_empty (env : users.Env) (m : users.Manager) (u : users.UserInfo) :
  users.Name u = ""%string \/ users.Groups u = [] ->
  exists err, users.UpdateUser env m u = Some (m, Some err).
Proof.
  intros H. unfold users.UpdateUser, users.updateUser.
  destruct (String.eqb_spec (users.Name u) "") as [Hn|Hn].
  - eexists. reflexivity.
  - destruct H as [H|H]; [contradiction|]. rewrite H. eexists. reflexivity.
Qed.

Lemma UpdateUser_rejects_empty_witness :
  (exists err, users.UpdateUser env_ok manager_empty nameless = Some (manager_empty, Some err)) /\
  (exists err, users.UpdateUser env_ok manager_empty groupless = Some (manager_empty, Some err)).
Proof.
  split.
  - apply (UpdateUser_rejects_empty env_ok manager_empty nameless). left. reflexivity.
  - apply (UpdateUser_rejects_empty env_ok manager_empty groupless). right. reflexivity.
Defined.

Example UpdateUser_rejected_errors :
  users.UpdateUser env_ok manager_empty nameless =
    Some (manager_empty,
          Some (goerrors.wrapError "failed to update user %q" [goerrors.argString ""]
                  (goerrors.errorString "empty username"))) /\
  users.UpdateUser env_ok manager_empty groupless =
    Some (manager_empty,
          Some (goerrors.wrapError "failed to update user %q" [goerrors.argString "bob"]
                  (goerrors.Errorf "no group provided for user %s (%v)"
                     [goerrors.argString "bob"; goerrors.argInt 70002]))).
Proof. split; reflexivity. Qed.

(** ** UpdateUser: groups without GID *)

Lemma groupLoop_split (username : string) (groups : list users.GroupInfo)
    (groupContents : list cache.GroupDB) (localGroups : list string) :
  Forall (fun g => users.GroupName g <> ""%string) groups ->
  users.groupLoop username groups groupContents localGroups =
    inl (groupContents ++
           omap (fun g => (fun gid => cache.NewGroupDB (users.GroupName g) gid [])
                            <$> users.GID g) groups,
         localGroups ++
           omap (fun g => match users.GID g with
                          | None => Some (users.GroupName g)
                          | Some _ => None
                          end) groups).
Proof.
  intros H. revert groupContents localGroups.
  induction H as [|g groups Hg _ IH]; intros groupContents localGroups; simpl.
  - rewrite !app_nil_r. reflexivity.
  - apply String.eqb_neq in Hg. rewrite Hg.
    destruct (users.GID g) as [gid|]; simpl; rewrite IH, <- app_assoc; reflexivity.
Qed.

Lemma putGroups_byName_other (groups : list cache.GroupDB)
    (byID byName : gmap string (cache.stored cache.GroupDB)) (name : string) :
  Forall (fun g => cache.GroupName g <> name) groups ->
  snd (cache.putGroups groups byID byName) !! name = byName !! name.
Proof.
  unfold cache.putGroups. intros H. revert byID byName.
  induction H as [|g groups Hg _ IH]; intros byID byName; simpl; [reflexivity|].
  rewrite IH. apply lookup_insert_ne. exact Hg.
Qed.

Lemma persistedGroups_names (u : users.UserInfo) (name : string) :
  (forall g, In g (users.Groups u) -> is_Some (users.GID g) -> users.GroupName g <> name) ->
  Forall (fun g => cache.GroupName g <> name) (users.persistedGroups u).
Proof.
  unfold users.persistedGroups. induction (users.Groups u) as [|g groups IH]; intros H; simpl.
  - constructor.
  - destruct (users.GID g) as [gid|] eqn:E; simpl.
    + constructor.
      * apply (H g); [left; reflexivity|]. rewrite E. eexists. reflexivity.
      * apply IH. intros g' Hin. apply H. right. exact Hin.
    + apply IH. intros g' Hin. apply H. right. exact Hin.
Qed.

(** C9: the first group of the user must carry a GID: without one the user
    is refused and nothing is written. A group without GID at a later
    position is accepted: the update succeeds, the database is written with
    the groups that carry a GID only, so that a group without GID adds no
    entry under its name, and the names of the groups without GID go to the
    local groups of the user. *)
Theorem UpdateUser_default_group_gid (env : users.Env) (m : users.Manager) (u : users.UserInfo)
    (g0 : users.GroupInfo) (rest : list users.GroupInfo) :
  users.Name u <> ""%string ->
  users.Groups u = g0 :: rest ->
  (users.GID g0 = None -> exists err, users.UpdateUser env m u = Some (m, Some err)) /\
  (forall c gid0,
     users.GID g0 = Some gid0 ->
     Forall (fun g => users.GroupName g <> ""%string) (users.Groups u) ->
     users.cache m = Some c -> cache.allBuckets c = true ->
     users.failUpdateEntry env = None -> users.failLocalUpdate env = None ->
     let c' := fst (cache.UpdateUserEntry None c
                      (cache.NewUserDB (users.now env) (users.Name u) (users.UID u) gid0
                         (users.Gecos u) (users.Dir u) (users.Shell u))
                      (users.persistedGroups u)) in
     users.UpdateUser env m u =
       Some (users.set_localGroups
               (fst (localgroups.Update None (users.localGroups m) (users.Name u)
                       (users.localGroupNames u)))
               (users.set_cache (Some c') m), None) /\
     forall g, In g (users.Groups u) -> users.GID g = None ->
       (forall g', In g' (users.Groups u) -> is_Some (users.GID g') ->
                   users.GroupName g' <> users.GroupName g) ->
       cache.bucketOr (cache.groupByName c') !! users.GroupName g =
       cache.bucketOr (cache.groupByName c) !! users.GroupName g).
Proof.
  intros Hn Hg. apply String.eqb_neq in Hn. split.
  - intros H0. unfold users.UpdateUser, users.updateUser. rewrite Hn, Hg, H0.
    eexists. reflexivity.
  - intros c gid0 H0 Hnames Hc Hb Hfu Hfl c'. split.
    + unfold users.UpdateUser, users.updateUser. rewrite Hn.
      rewrite (groupLoop_split _ _ [] [] Hnames). simpl app.
      fold (users.persistedGroups u). fold (users.localGroupNames u).
      rewrite Hg at 1. rewrite H0, Hc, Hfu.
      subst c'. unfold cache.UpdateUserEntry. rewrite Hb. simpl negb. cbv iota.
      rewrite Hfl. reflexivity.
    + intros g Hin Hgid Hother. subst c'. unfold cache.UpdateUserEntry. rewrite Hb.
      simpl. apply putGroups_byName_other. apply persistedGroups_names. exact Hother.
Qed.

Lemma UpdateUser_default_group_gid_witness :
  (exists err, users.UpdateUser env_ok manager_empty local_first = Some (manager_empty, Some err)) /\
  users.UpdateUser env_ok manager_empty alice =
    Some (users.set_localGroups
            (fst (localgroups.Update None (users.localGroups manager_empty) (users.Name alice)
                    (users.localGroupNames alice)))
            (users.set_cache
               (Some (fst (cache.UpdateUserEntry None cache.emptyDb
                             (cache.NewUserDB (users.now env_ok) (users.Name alice)
                                (users.UID alice) 70000 (users.Gecos alice) (users.Dir alice)
                                (users.Shell alice))
                             (users.persistedGroups alice))))
               manager_empty), None).
Proof.
  split.
  - apply (proj1 (UpdateUser_default_group_gid env_ok manager_empty local_first
                    {| users.GroupName := "sudo"; users.GID := None |}
                    [ {| users.GroupName := "staff"; users.GID := Some 70000 |} ]
                    ltac:(discriminate) eq_refl)).
    reflexivity.
  - apply (proj2 (UpdateUser_default_group_gid env_ok manager_empty alice
                    {| users.GroupName := "staff"; users.GID := Some 70000 |}
                    [ {| users.GroupName := "sudo"; users.GID := None |} ]
                    ltac:(discriminate) eq_refl) cache.emptyDb 70000);
      try reflexivity.
    repeat constructor; discriminate.
Defined.

(** After the update of [alice], whose second group has no GID: the group
    with a GID is in the database under its name, the one without is not,
    and it is the local group of the user. *)
Example UpdateUser_alice :
  match users.UpdateUser env_ok manager_empty alice with
  | Some (m, None) =>
      match users.cache m with
      | Some c =>
          cache.bucketOr (cache.groupByName c) !! "staff"%string =
            Some (cache.Decodes (cache.NewGroupDB "staff" 70000 [])) /\
          cache.bucketOr (cache.groupByName c) !! "sudo"%string = None /\
          snd (cache.UserByName c "alice") = None /\
          users.localGroups m !! "alice"%string = Some ["sudo"%string]
      | None => False
      end
  | _ => False
  end.
Proof. vm_compute. repeat split. Qed.

(** ** UpdateUser: failure of the local groups *)

Lemma UpdateUserEntry_written (fault : option goerrors.error) (c c1 : cache.Db)
    (usr : cache.UserDB) (groups : list cache.GroupDB) :
  cache.UpdateUserEntry fault c usr groups = (c1, None) ->
  cache.allBuckets c1 = true /\
  cache.bucketOr (cache.userByID c1) !! cache.Itoa (cache.UID (cache.passwd usr)) =
    Some (cache.Decodes usr).
Proof.
  unfold cache.UpdateUserEntry. destruct fault; [discriminate|].
  destruct (cache.allBuckets c); simpl; [|discriminate].
  intros [= <-]. simpl. split; [reflexivity|]. apply lookup_insert_eq.
Qed.

Lemma DeleteUser_gone (c1 : cache.Db) (usr : cache.UserDB) :
  cache.allBuckets c1 = true ->
  cache.bucketOr (cache.userByID c1) !! cache.Itoa (cache.UID (cache.passwd usr)) =
    Some (cache.Decodes usr) ->
  let res := cache.DeleteUser None c1 (cache.UID (cache.passwd usr)) in
  snd res = None /\
  snd (cache.UserByID (fst res) (cache.UID (cache.passwd usr))) =
    Some (goerrors.NoDataFoundError (cache.Itoa (cache.UID (cache.passwd usr)))
            cache.userByIDBucketName) /\
  snd (cache.UserByName (fst res) (cache.Name (cache.passwd usr))) =
    Some (goerrors.NoDataFoundError (cache.Name (cache.passwd usr)) cache.userByNameBucketName).
Proof.
  intros Hb Hl res. subst res. unfold cache.DeleteUser. rewrite Hb, Hl. simpl.
  split; [reflexivity|]. split.
  - unfold cache.UserByID, cache.getUser, cache.getFromBucket. simpl.
    rewrite lookup_delete_eq. reflexivity.
  - unfold cache.UserByName, cache.getUser, cache.getFromBucket. simpl.
    rewrite lookup_delete_eq. reflexivity.
Qed.

(** C10: when the user has been written to the database and the update of
    the local groups fails, [UpdateUser] calls [DeleteUser] for the user and
    returns the error of the local groups, joined with the error of the
    deletion if it has one; when the deletion goes through, lookups of the
    user by id and by name answer not found, and the local groups are as
    they were. *)
Theorem UpdateUser_local_groups_failure (env : users.Env) (m : users.Manager) (c c1 : cache.Db)
    (u : users.UserInfo) (g0 : users.GroupInfo) (rest : list users.GroupInfo) (gid0 : Z)
    (err : goerrors.error) :
  users.Name u <> ""%string ->
  users.Groups u = g0 :: rest ->
  users.GID g0 = Some gid0 ->
  Forall (fun g => users.GroupName g <> ""%string) (users.Groups u) ->
  users.cache m = Some c ->
  cache.UpdateUserEntry (users.failUpdateEntry env) c
    (cache.NewUserDB (users.now env) (users.Name u) (users.UID u) gid0
       (users.Gecos u) (users.Dir u) (users.Shell u))
    (users.persistedGroups u) = (c1, None) ->
  users.failLocalUpdate env = Some err ->
  let deleted := cache.DeleteUser (users.failDeleteUser env) c1 (users.UID u) in
  users.UpdateUser env m u =
    Some (fst (users.shouldClearDb env (users.set_cache (Some (fst deleted)) m) (snd deleted)),
          Some (goerrors.wrapError "failed to update user %q" [goerrors.argString (users.Name u)]
                  (goerrors.joinError
                     (err :: match snd deleted with Some d => [d] | None => [] end)))) /\
  (users.failDeleteUser env = None ->
     snd deleted = None /\
     snd (cache.UserByID (fst deleted) (users.UID u)) =
       Some (goerrors.NoDataFoundError (cache.Itoa (users.UID u)) cache.userByIDBucketName) /\
     snd (cache.UserByName (fst deleted) (users.Name u)) =
       Some (goerrors.NoDataFoundError (users.Name u) cache.userByNameBucketName)).
Proof.
  intros Hn Hg H0 Hnames Hc Hw Hfl deleted. apply String.eqb_neq in Hn. split.
  - unfold users.UpdateUser, users.updateUser. rewrite Hn.
    rewrite (groupLoop_split _ _ [] [] Hnames). simpl app.
    fold (users.persistedGroups u). fold (users.localGroupNames u).
    rewrite Hg at 1. rewrite H0, Hc, Hw.
    unfold localgroups.Update. simpl users.localGroups. rewrite Hfl.
    fold deleted. destruct deleted as [c2 derr]. simpl fst. simpl snd.
    unfold users.shouldClearDb.
    destruct derr as [d|]; [destruct (goerrors.Is_ErrNeedsClearing d)|]; reflexivity.
  - intros Hfd. subst deleted. rewrite Hfd.
    destruct (UpdateUserEntry_written _ _ _ _ _ Hw) as [Hb Hl].
    exact (DeleteUser_gone c1 _ Hb Hl).
Qed.

Lemma UpdateUser_local_groups_failure_witness :
  users.UpdateUser env_local_fails manager_empty alice =
    Some (fst (users.shouldClearDb env_local_fails
                 (users.set_cache
                    (Some (fst (cache.DeleteUser None
                                  (fst (cache.UpdateUserEntry None cache.emptyDb
                                          (cache.NewUserDB 1700000000 "alice" 735577801 70000
                                             "Alice" "/home/alice" "/bin/bash")
                                          (users.persistedGroups alice)))
                                  735577801)))
                    manager_empty)
                 None),
          Some (goerrors.wrapError "failed to update user %q" [goerrors.argString "alice"]
                  (goerrors.joinError [goerrors.errorString "gpasswd failed"]))).
Proof.
  apply (proj1 (UpdateUser_local_groups_failure env_local_fails manager_empty cache.emptyDb
                  (fst (cache.UpdateUserEntry None cache.emptyDb
                          (cache.NewUserDB 1700000000 "alice" 735577801 70000
                             "Alice" "/home/alice" "/bin/bash")
                          (users.persistedGroups alice)))
                  alice {| users.GroupName := "staff"; users.GID := Some 70000 |}
                  [ {| users.GroupName := "sudo"; users.GID := None |} ] 70000
                  (goerrors.errorString "gpasswd failed")
                  ltac:(discriminate) eq_refl eq_refl
                  ltac:(repeat constructor; discriminate) eq_refl eq_refl eq_refl)).
Defined.

(** After the failed update of [alice] the database has no user and no user
    is in the local groups; the group written with the user stays. *)
Example UpdateUser_alice_rolled_back :
  match users.UpdateUser env_local_fails manager_empty alice with
  | Some (m, Some _) =>
      match users.cache m with
      | Some c =>
          cache.AllUsers c = ([], None) /\
          snd (cache.UserByName c "alice") =
            Some (goerrors.NoDataFoundError "alice" "UserByName") /\
          users.localGroups m = ∅ /\ users.files m = ∅ /\ users.doClear m = 0%nat
      | None => False
      end
  | _ => False
  end.
Proof. vm_compute. repeat split. Qed.

(** ** NewManager with the corruption flag *)

Lemma openLoop_opens (env : users.Env) (file : cache.DbFile)
    (groups : gmap string (list string)) :
  users.failOpen env = None -> users.failRemoveDb env = None ->
  exists c groups', users.openLoop env 2 file groups = inl (Some c, groups').
Proof.
  intros Ho Hr. simpl. unfold cache.New, cache.RemoveDb. rewrite Ho, Hr.
  destruct file as [|raw|db]; simpl; eauto.
Qed.

Lemma Clean_empty_store (groups : gmap string (list string)) :
  localgroups.Clean None (Some cache.emptyDb) groups = (∅, None).
Proof.
  unfold localgroups.Clean. f_equal. apply map_empty. intros i.
  apply map_lookup_filter_None. right. intros x _ H. simpl in H.
  unfold localgroups.inStore in H. simpl in H. rewrite lookup_empty in H.
  rewrite bool_decide_eq_true in H. destruct H as [y Hy]. discriminate.
Qed.

Lemma AllUsers_emptyDb : cache.AllUsers cache.emptyDb = ([], None).
Proof.
  unfold cache.AllUsers, cache.entries. simpl. rewrite map_to_list_empty. reflexivity.
Qed.

Lemma CleanExpiredUsers_emptyDb (fault : option goerrors.error) (activeUIDs : list Z)
    (expirationDate : Z) :
  cache.CleanExpiredUsers fault cache.emptyDb activeUIDs expirationDate = (cache.emptyDb, inl []).
Proof.
  unfold cache.CleanExpiredUsers, cache.entries. simpl. rewrite map_to_list_empty. reflexivity.
Qed.

(** C3: when the flag file [.corrupted] is in the cache directory as the
    manager is created, and opening and clearing the database, removing the
    flag and cleaning the local groups do not fail, [NewManager] returns a
    manager whose database has been recreated empty, whose flag file is
    removed and whose local groups are cleaned; [AllUsers] then returns no
    user and no error. *)
Theorem NewManager_clears_marked (filepath_Join : string -> string -> string)
    (env : users.Env) (host : users.Host) (cacheDir : string) :
  filepath_Join cacheDir users.dirtyFlagName ∈ users.hostFiles host ->
  users.failOpen env = None -> users.failRemoveDb env = None ->
  users.failClear env = None -> users.failRemoveFlag env = None ->
  users.failLocalClean env = None ->
  let m := {| users.cache := Some cache.emptyDb;
              users.dirtyFlagPath := filepath_Join cacheDir users.dirtyFlagName;
              users.files := users.hostFiles host ∖ {[filepath_Join cacheDir users.dirtyFlagName]};
              users.localGroups := ∅; users.doClear := 0%nat;
              users.cleanupRoutine := true |} in
  users.NewManager filepath_Join env host cacheDir = users.Created m /\
  users.isMarkedCorrupted m = false /\
  users.AllUsers env m = Some (m, [], None).
Proof.
  intros Hflag Ho Hr Hc Hrf Hlc m. split; [|split].
  - unfold users.NewManager.
    destruct (openLoop_opens env (users.dbFile host) (users.hostGroups host) Ho Hr)
      as [c [groups ->]].
    unfold users.isMarkedCorrupted at 1. simpl users.dirtyFlagPath. simpl users.files.
    rewrite bool_decide_eq_true_2 by exact Hflag.
    unfold users.clear. simpl users.cache. unfold cache.Clear. rewrite Hc.
    unfold users.removeFlag. rewrite Hrf.
    unfold users.isMarkedCorrupted. simpl users.dirtyFlagPath. simpl users.files.
    rewrite bool_decide_eq_true_2 by exact Hflag.
    simpl fst. simpl users.cache. simpl users.localGroups. rewrite Hlc, Clean_empty_store.
    unfold users.cleanExpiredUserData. simpl users.cache.
    destruct (users.cleanOnNew env); [|reflexivity].
    destruct (users.runningUIDs env) as [uids|err]; [|reflexivity].
    rewrite CleanExpiredUsers_emptyDb. reflexivity.
  - unfold users.isMarkedCorrupted. subst m. simpl.
    apply bool_decide_eq_false_2. apply not_elem_of_difference. right.
    apply elem_of_singleton. reflexivity.
  - unfold users.AllUsers. subst m. simpl users.cache. cbv beta iota.
    rewrite AllUsers_emptyDb. reflexivity.
Qed.

Lemma NewManager_clears_marked_witness :
  let m := {| users.cache := Some cache.emptyDb;
              users.dirtyFlagPath := join_plain "/var/cache/authd" users.dirtyFlagName;
              users.files := users.hostFiles host_marked ∖
                               {[join_plain "/var/cache/authd" users.dirtyFlagName]};
              users.localGroups := ∅; users.doClear := 0%nat;
              users.cleanupRoutine := true |} in
  users.NewManager join_plain env_ok host_marked "/var/cache/authd" = users.Created m /\
  users.isMarkedCorrupted m = false /\
  users.AllUsers env_ok m = Some (m, [], None).
Proof.
  apply (NewManager_clears_marked join_plain env_ok host_marked "/var/cache/authd");
    reflexivity.
Defined.

(** Corruption and recovery: on the database with a garbled user [AllUsers]
    fails with an error that asks for clearing, writes the flag file and
    requests a clear; the next [NewManager] on that host recreates the
    database, and [AllUsers] is empty without error. *)
Example corruption_recovery :
  match users.AllUsers env_ok manager_garbled with
  | Some (m, usrs, Some err) =>
      usrs = [] /\ goerrors.Is_ErrNeedsClearing err = true /\
      users.isMarkedCorrupted m = true /\ users.doClear m = 1%nat /\
      match users.NewManager join_plain env_ok
              {| users.dbFile := cache.Valid db_garbled; users.hostFiles := users.files m;
                 users.hostGroups := users.localGroups m |} "/var/cache/authd" with
      | users.Created m' =>
          users.isMarkedCorrupted m' = false /\ users.localGroups m' = ∅ /\
          users.AllUsers env_ok m' = Some (m', [], None)
      | _ => False
      end
  | _ => False
  end.
Proof. vm_compute. repeat split. Qed.

(** * Further properties of the code *)

(** ** The GDM model: stopped conversations *)

(** X1: once [stopConversations] has run, the model talks to GDM no more:
    every update returns the model as it is with no command and emits no
    event, [changeStage] makes no request, and this holds along every run. *)
Theorem stopConversations_silences (dataToMsg : string -> string + string)
    (fmt_q json_Marshal : string -> string) (m : adapter.gdmModel)
    (inputs : list (adapter.gdmConn * adapter.Msg)) :
  let stopped := gdmtalk.stopConversations m in
  (forall gdm msg,
     adapter.Update dataToMsg fmt_q json_Marshal gdm stopped msg = (stopped, adapter.cmdNil, [])) /\
  (forall SendRequest s, gdmtalk.changeStage SendRequest stopped s = (adapter.cmdNil, [])) /\
  Forall (fun step => step = (stopped, stopped, []))
         (adapter.run dataToMsg fmt_q json_Marshal stopped inputs).
Proof.
  intros stopped. split; [|split]; try reflexivity.
  induction inputs as [|[gdm msg] rest IH]; simpl; constructor; auto.
Qed.

(** ** The GDM model: polling *)

Lemma sent_snoc (commands : list adapter.Cmd) (c : adapter.Cmd) :
  flat_map gdmtalk.sent (commands ++ [c]) = flat_map gdmtalk.sent commands ++ gdmtalk.sent c.
Proof. rewrite flat_map_app. simpl. rewrite app_nil_r. reflexivity. Qed.

Ltac poll_cases r :=
  destruct r as [userId|brokersInfos|[brokerId|]|authModes|[authModeId|]|uiLayout|
                 |[item|]| | |[stage|]|access text]; simpl.

(** A model that is not waiting comes out of the loop as it went in, and the
    loop adds no message about an authentication. *)
Lemma pollLoop_idle (results : list adapter.EventData) (m : adapter.gdmModel)
    (commands : list adapter.Cmd) :
  adapter.waitingAuth m = false ->
  fst (adapter.pollLoop m commands results) = m /\
  (Forall (fun msg => gdmtalk.isAuthRequest msg || gdmtalk.isCancel msg = false)
          (flat_map gdmtalk.sent commands) ->
   Forall (fun msg => gdmtalk.isAuthRequest msg || gdmtalk.isCancel msg = false)
          (gdmtalk.sent (snd (adapter.pollLoop m commands results)))).
Proof.
  intros Hw. revert commands.
  induction results as [|r rest IH]; intros commands; [simpl; auto|].
  poll_cases r; rewrite ?Hw; simpl;
    match goal with
    | |- context [adapter.pollLoop m (commands ++ [?c]) rest] =>
        destruct (IH (commands ++ [c])) as [E F];
        split; [exact E | intros H; apply F; rewrite sent_snoc; apply Forall_app; split;
                          [exact H | repeat constructor]]
    | |- context [adapter.pollLoop m commands rest] => apply IH
    | |- _ => split; [reflexivity | intros _; repeat constructor]
    end.
Qed.

(** The messages with authentication data that the loop adds, and the
    authentication still pending after it, are paid for by the one that was
    pending before. *)
Lemma pollLoop_auth_requests (results : list adapter.EventData) (m : adapter.gdmModel)
    (commands : list adapter.Cmd) :
  (gdmtalk.authRequests (snd (adapter.pollLoop m commands results)) +
   adapter.pending (fst (adapter.pollLoop m commands results)) <=
   length (List.filter gdmtalk.isAuthRequest (flat_map gdmtalk.sent commands)) +
   adapter.pending m)%nat.
Proof.
  revert m commands.
  induction results as [|r rest IH]; intros m commands;
    [unfold gdmtalk.authRequests; simpl; lia|].
  assert (Hsnoc : forall (cmds : list adapter.Cmd) c,
            gdmtalk.sent c = [] \/
            (exists msg, gdmtalk.sent c = [msg] /\ gdmtalk.isAuthRequest msg = false) ->
            length (List.filter gdmtalk.isAuthRequest (flat_map gdmtalk.sent (cmds ++ [c]))) =
            length (List.filter gdmtalk.isAuthRequest (flat_map gdmtalk.sent cmds))).
  { intros cmds c Hc. rewrite sent_snoc, List.filter_app, length_app.
    destruct Hc as [-> | [msg [-> Hm]]]; simpl; [|rewrite Hm]; simpl; lia. }
  poll_cases r;
    try (unfold gdmtalk.authRequests; simpl; unfold adapter.pending; simpl;
         destruct (adapter.waitingAuth m); simpl; lia);
    try apply IH.
  - etransitivity; [apply IH|]. rewrite Hsnoc; [lia|]. right. eexists. split; reflexivity.
  - etransitivity; [apply IH|]. rewrite Hsnoc; [lia|]. right. eexists. split; reflexivity.
  - etransitivity; [apply IH|]. rewrite Hsnoc; [lia|]. left. reflexivity.
  - destruct (adapter.waitingAuth m) eqn:Hw; simpl; [|apply IH].
    etransitivity; [apply IH|].
    rewrite sent_snoc, List.filter_app, length_app. simpl.
    unfold adapter.pending. rewrite Hw. simpl. lia.
  - destruct (adapter.waitingAuth m) eqn:Hw; simpl.
    + unfold gdmtalk.authRequests, adapter.pending. simpl. lia.
    + apply IH.
  - etransitivity; [apply IH|]. rewrite Hsnoc; [lia|]. right. eexists. split; reflexivity.
  - destruct (adapter.waitingAuth m) eqn:Hw; simpl; [|apply IH].
    etransitivity; [apply IH|]. rewrite Hsnoc; [lia|]. right. eexists. split; reflexivity.
  - etransitivity; [apply IH|].
    destruct (adapter.waitingAuth m && negb (adapter.Stage_eqb stage adapter.Stage_challenge)).
    + rewrite !Hsnoc; [lia| |]; right; eexists; split; reflexivity.
    + rewrite Hsnoc; [lia|]. right. eexists. split; reflexivity.
Qed.

(** The loop ends in the batch of the commands it was given, followed by its
    own, or in the report of one system error. *)
Lemma pollLoop_shape (results : list adapter.EventData) (m : adapter.gdmModel)
    (commands : list adapter.Cmd) :
  (exists more, snd (adapter.pollLoop m commands results) = adapter.tea_Batch (commands ++ more)) \/
  (exists text, snd (adapter.pollLoop m commands results) =
                adapter.sendEvent (adapter.pamError adapter.ErrSystem text)).
Proof.
  revert m commands.
  assert (Hmore : forall m (commands : list adapter.Cmd) c rest,
            (forall m commands,
               (exists more, snd (adapter.pollLoop m commands rest) =
                             adapter.tea_Batch (commands ++ more)) \/
               (exists text, snd (adapter.pollLoop m commands rest) =
                             adapter.sendEvent (adapter.pamError adapter.ErrSystem text))) ->
            (exists more, snd (adapter.pollLoop m (commands ++ c) rest) =
                          adapter.tea_Batch (commands ++ more)) \/
            (exists text, snd (adapter.pollLoop m (commands ++ c) rest) =
                          adapter.sendEvent (adapter.pamError adapter.ErrSystem text))).
  { intros m commands c rest IH. destruct (IH m (commands ++ c)) as [[more E]|[text E]].
    - left. exists (c ++ more). rewrite E, app_assoc. reflexivity.
    - right. exists text. exact E. }
  induction results as [|r rest IH]; intros m commands.
  - left. exists []. simpl. rewrite app_nil_r. reflexivity.
  - poll_cases r;
      try (right; eexists; reflexivity);
      try apply IH;
      try (apply Hmore; exact IH).
    + destruct (negb (adapter.waitingAuth m)); [apply IH|]. apply Hmore. exact IH.
    + destruct (negb (adapter.waitingAuth m)); [apply IH|]. right. eexists. reflexivity.
    + destruct (adapter.waitingAuth m); [apply Hmore; exact IH | apply IH].
    + destruct (adapter.waitingAuth m && negb (adapter.Stage_eqb stage adapter.Stage_challenge)).
      * rewrite <- app_assoc. apply Hmore. exact IH.
      * apply Hmore. exact IH.
Qed.

(** X2: a poll made while no authentication is pending leaves the model as
    it is and forwards neither authentication data nor a cancellation,
    whatever GDM reports. *)
Theorem pollGdm_idle_forwards_no_auth (gdm : adapter.gdmConn) (m : adapter.gdmModel) :
  adapter.waitingAuth m = false ->
  fst (adapter.pollGdm gdm m) = m /\
  Forall (fun msg => gdmtalk.isAuthRequest msg = false /\ gdmtalk.isCancel msg = false)
         (gdmtalk.sent (snd (adapter.pollGdm gdm m))).
Proof.
  intros Hw. unfold adapter.pollGdm. destruct (adapter.SendPoll gdm) as [results|err].
  - destruct (pollLoop_idle results m [adapter.sendEvent adapter.gdmPollDone] Hw) as [E F].
    split; [exact E|].
    eapply List.Forall_impl; [|apply F; repeat constructor].
    intros msg H. apply orb_false_elim in H. exact H.
  - simpl. split; [reflexivity|]. repeat constructor.
Qed.

Lemma pollGdm_idle_forwards_no_auth_witness :
  fst (adapter.pollGdm gdm_insisting model_idle) = model_idle /\
  Forall (fun msg => gdmtalk.isAuthRequest msg = false /\ gdmtalk.isCancel msg = false)
         (gdmtalk.sent (snd (adapter.pollGdm gdm_insisting model_idle))).
Proof. apply (pollGdm_idle_forwards_no_auth gdm_insisting model_idle). reflexivity. Defined.

(** X3: one poll forwards authentication data once at most, and only for an
    authentication that was pending; when it does, none is pending after the
    poll. In numbers: the forwarded data and the authentication pending
    after the poll are together no more than the one pending before. *)
Theorem pollGdm_forwards_one_auth (gdm : adapter.gdmConn) (m : adapter.gdmModel) :
  (gdmtalk.authRequests (snd (adapter.pollGdm gdm m)) +
   adapter.pending (fst (adapter.pollGdm gdm m)) <= adapter.pending m)%nat.
Proof.
  unfold adapter.pollGdm. destruct (adapter.SendPoll gdm) as [results|err].
  - apply (pollLoop_auth_requests results m [adapter.sendEvent adapter.gdmPollDone]).
  - unfold gdmtalk.authRequests. simpl. lia.
Qed.

(** X4: the command of a poll is a batch that starts with [gdmPollDone], so
    that polling goes on, or it is the report of one system error alone, and
    then no further poll is asked for. *)
Theorem pollGdm_rearms_or_fails (gdm : adapter.gdmConn) (m : adapter.gdmModel) :
  (exists more, snd (adapter.pollGdm gdm m) =
                adapter.tea_Batch (adapter.sendEvent adapter.gdmPollDone :: more)) \/
  (exists text, snd (adapter.pollGdm gdm m) =
                adapter.sendEvent (adapter.pamError adapter.ErrSystem text) /\
                gdmtalk.sent (snd (adapter.pollGdm gdm m)) =
                [adapter.pamError adapter.ErrSystem text]).
Proof.
  unfold adapter.pollGdm. destruct (adapter.SendPoll gdm) as [results|err].
  - destruct (pollLoop_shape results m [adapter.sendEvent adapter.gdmPollDone])
      as [[more E]|[text E]].
    + left. exists more. exact E.
    + right. exists text. rewrite E. split; reflexivity.
  - right. eexists. split; reflexivity.
Qed.

(** ** The GDM model: what an update changes *)

(** X5: an update never changes [conversationsStopped], emits one event at
    most while it runs, and leaves the whole model as it is unless the
    message is a poll, a start of authentication or a cancellation; the
    result of an authentication, whatever its access, does not end the
    waiting. *)
Theorem Update_frame (dataToMsg : string -> string + string)
    (fmt_q json_Marshal : string -> string) (gdm : adapter.gdmConn) (m : adapter.gdmModel)
    (msg : adapter.Msg) :
  let res := adapter.Update dataToMsg fmt_q json_Marshal gdm m msg in
  adapter.conversationsStopped (fst (fst res)) = adapter.conversationsStopped m /\
  (length (snd res) <= 1)%nat /\
  (gdmtalk.drivesAuth msg = false -> fst (fst res) = m).
Proof.
  unfold adapter.Update.
  destruct (adapter.conversationsStopped m) eqn:Hs; [simpl; auto|].
  destruct msg; simpl; try (repeat split; intros; try lia; try discriminate; auto; fail).
  - pose proof (pollLoop_waiting) as P. unfold adapter.pollGdm.
    destruct (adapter.SendPoll gdm) as [results|err]; simpl.
    + specialize (P results m [adapter.sendEvent adapter.gdmPollDone]). simpl in P.
      destruct (adapter.pollLoop m [adapter.sendEvent adapter.gdmPollDone] results) as [m' c].
      simpl in *. destruct P as [P _]. rewrite P. repeat split; auto; discriminate.
    + repeat split; auto; discriminate.
  - destruct (adapter.waitingAuth m); simpl; repeat split; auto; discriminate.
  - destruct (dataToMsg msg) as [authMsg|err]; simpl; [|repeat split; auto].
    repeat match goal with
           | |- context [if ?b then _ else _] => destruct b
           end; simpl; repeat split; auto.
Qed.

(** X6: starting an authentication and cancelling it brings the model back
    to where it was, and a new start is then accepted: the three updates
    emit the start, the cancellation with its message, and the start again. *)
Theorem start_cancel_start (dataToMsg : string -> string + string)
    (fmt_q json_Marshal : string -> string) (gdm1 gdm2 gdm3 : adapter.gdmConn)
    (m : adapter.gdmModel) (text : string) :
  adapter.conversationsStopped m = false ->
  adapter.waitingAuth m = false ->
  let Update := adapter.Update dataToMsg fmt_q json_Marshal in
  let r1 := Update gdm1 m adapter.startAuthentication in
  let r2 := Update gdm2 (fst (fst r1)) (adapter.isAuthenticatedCancelled text) in
  let r3 := Update gdm3 (fst (fst r2)) adapter.startAuthentication in
  snd r1 = [adapter.EventData_StartAuthentication] /\
  snd r2 = [adapter.EventData_AuthEvent brokers.AuthCancelled text] /\
  fst (fst r2) = m /\
  snd r3 = [adapter.EventData_StartAuthentication] /\
  adapter.waitingAuth (fst (fst r3)) = true.
Proof.
  intros Hs Hw. destruct m as [w s]. simpl in Hs, Hw. subst w s.
  repeat split.
Qed.

Lemma start_cancel_start_witness :
  let Update := adapter.Update decode_braced quote_plain quote_plain in
  let r1 := Update gdm_quiet model_idle adapter.startAuthentication in
  let r2 := Update gdm_quiet (fst (fst r1)) (adapter.isAuthenticatedCancelled "bye") in
  let r3 := Update gdm_answering (fst (fst r2)) adapter.startAuthentication in
  snd r1 = [adapter.EventData_StartAuthentication] /\
  snd r2 = [adapter.EventData_AuthEvent brokers.AuthCancelled "bye"] /\
  fst (fst r2) = model_idle /\
  snd r3 = [adapter.EventData_StartAuthentication] /\
  adapter.waitingAuth (fst (fst r3)) = true.
Proof.
  apply (start_cancel_start decode_braced quote_plain quote_plain gdm_quiet gdm_quiet
           gdm_answering model_idle "bye"); reflexivity.
Defined.

(** X7: when GDM refuses the event that starts an authentication, the
    update reports a system error with the text of the failure, yet the
    model is left waiting all the same: a later request to start is ignored,
    with no command and no event, until a cancellation or a poll ends the
    waiting. *)
Theorem startAuthentication_refused_still_waits (dataToMsg : string -> string + string)
    (fmt_q json_Marshal : string -> string) (gdm gdm' : adapter.gdmConn) (m : adapter.gdmModel)
    (err : string) :
  adapter.conversationsStopped m = false ->
  adapter.waitingAuth m = false ->
  adapter.EmitEvent gdm adapter.EventData_StartAuthentication = Some err ->
  let Update := adapter.Update dataToMsg fmt_q json_Marshal in
  let m1 := adapter.set_waitingAuth true m in
  Update gdm m adapter.startAuthentication =
    (m1,
     adapter.sendEvent (adapter.pamError adapter.ErrSystem
                          (String.append "Sending GDM event failed: " err)),
     [adapter.EventData_StartAuthentication]) /\
  Update gdm' m1 adapter.startAuthentication = (m1, adapter.cmdNil, []).
Proof.
  intros Hs Hw He Update m1. subst Update m1. unfold adapter.Update, adapter.emitEventSync.
  simpl. rewrite Hs, Hw, He. split; reflexivity.
Qed.

Lemma startAuthentication_refused_still_waits_witness :
  let Update := adapter.Update decode_braced quote_plain quote_plain in
  let m1 := adapter.set_waitingAuth true model_idle in
  Update gdm_refusing model_idle adapter.startAuthentication =
    (m1,
     adapter.sendEvent (adapter.pamError adapter.ErrSystem
                          (String.append "Sending GDM event failed: " "broken pipe")),
     [adapter.EventData_StartAuthentication]) /\
  Update gdm_quiet m1 adapter.startAuthentication = (m1, adapter.cmdNil, []).
Proof.
  apply (startAuthentication_refused_still_waits decode_braced quote_plain quote_plain
           gdm_refusing gdm_quiet model_idle "broken pipe"); reflexivity.
Defined.

(** X24: when the message of an authentication result does not decode, the
    update reports a system error with the text of the decoder, emits
    nothing to GDM and leaves the model as it is, whatever the access of the
    result, [granted] included: the access is not looked at. *)
Theorem authResult_undecodable (dataToMsg : string -> string + string)
    (fmt_q json_Marshal : string -> string) (gdm : adapter.gdmConn) (m : adapter.gdmModel)
    (access msg err : string) :
  adapter.conversationsStopped m = false ->
  dataToMsg msg = inr err ->
  adapter.Update dataToMsg fmt_q json_Marshal gdm m
    (adapter.isAuthenticatedResultReceived access msg) =
    (m, adapter.sendEvent (adapter.pamError adapter.ErrSystem err), []).
Proof. intros Hs Hd. unfold adapter.Update. rewrite Hs, Hd. reflexivity. Qed.

Lemma authResult_undecodable_witness :
  adapter.Update decode_braced quote_plain quote_plain gdm_quiet model_waiting
    (adapter.isAuthenticatedResultReceived brokers.AuthGranted "oops") =
    (model_waiting,
     adapter.sendEvent (adapter.pamError adapter.ErrSystem "invalid json data from provider"),
     []).
Proof.
  apply (authResult_undecodable decode_braced quote_plain quote_plain gdm_quiet model_waiting
           brokers.AuthGranted "oops" "invalid json data from provider"); reflexivity.
Defined.

(** ** The PAM client: starting a broker session *)

(** X8: [startBrokerSession] answers [SessionStarted] exactly when the
    broker is not the local one and the daemon answers the request with a
    session id and an encryption key that are both non-empty, and it then
    carries those two; for the local broker it answers [pamIgnore] and sends
    nothing, and for any other broker it sends exactly one request. *)
Theorem startBrokerSession_outcome (environ : gmap string string)
    (SelectBroker : pam.SBRequest -> pam.SBResponse + string) (brokerID username : string) :
  let res := pam.startBrokerSession environ SelectBroker brokerID username in
  let sbReq := {| pam.BrokerId := brokerID; pam.Username := username;
                  pam.Lang := gostrings.TrimSuffix (pam.langLoop environ) ".UTF-8" |} in
  (forall sid key,
     fst res = pam.SessionStarted sid key <->
     brokerID <> "local"%string /\ sid <> ""%string /\ key <> ""%string /\
     SelectBroker sbReq = inl {| pam.SessionId := sid; pam.EncryptionKey := key |}) /\
  (brokerID = "local"%string <-> res = (pam.pamIgnore "", [])) /\
  (brokerID <> "local"%string <-> snd res = [sbReq]).
Proof.
  intros res sbReq. subst res. unfold pam.startBrokerSession. fold sbReq.
  destruct (String.eqb_spec brokerID "local") as [Hl|Hl].
  { simpl. split; [|split].
    - intros sid key. split; [discriminate | intros [H _]; contradiction].
    - split; auto.
    - split; [contradiction | discriminate]. }
  split; [|split].
  - intros sid key. destruct (SelectBroker sbReq) as [[sid' key']|err]; simpl.
    + destruct (String.eqb_spec sid' "") as [Hs|Hs]; simpl.
      * split; [discriminate|]. intros (_ & Hsid & _ & [= <- _]). contradiction.
      * destruct (String.eqb_spec key' "") as [Hk|Hk]; simpl.
        -- split; [discriminate|]. intros (_ & _ & Hkey & [= _ <-]). contradiction.
        -- split.
           ++ intros [= <- <-]. auto.
           ++ intros (_ & _ & _ & [= <- <-]). reflexivity.
    + split; [discriminate|]. intros (_ & _ & _ & H). discriminate.
  - split; [contradiction|]. intros H. apply (f_equal snd) in H. revert H.
    destruct (SelectBroker sbReq) as [[sid' key']|err]; simpl;
      repeat match goal with
             | |- context [if ?b then _ else _] => destruct b
             end; discriminate.
  - split; [|auto]. intros _.
    destruct (SelectBroker sbReq) as [[sid' key']|err]; simpl;
      repeat match goal with
             | |- context [if ?b then _ else _] => destruct b
             end; reflexivity.
Qed.

(** ** The manager: the corruption flag *)

Lemma set_cache_same (m : users.Manager) (c : cache.Db) :
  users.cache m = Some c -> users.set_cache (Some c) m = m.
Proof. destruct m. simpl. intros ->. reflexivity. Qed.

Lemma markCorrupted_marks (env : users.Env) (m : users.Manager) :
  users.failWriteFlag env = None ->
  snd (users.markCorrupted env m) = None /\
  users.isMarkedCorrupted (fst (users.markCorrupted env m)) = true /\
  (forall f, f ∈ users.files (fst (users.markCorrupted env m)) <->
             f = users.dirtyFlagPath m \/ f ∈ users.files m) /\
  users.dirtyFlagPath (fst (users.markCorrupted env m)) = users.dirtyFlagPath m /\
  users.cache (fst (users.markCorrupted env m)) = users.cache m /\
  users.localGroups (fst (users.markCorrupted env m)) = users.localGroups m /\
  users.doClear (fst (users.markCorrupted env m)) = users.doClear m.
Proof.
  intros Hf. unfold users.markCorrupted.
  destruct (users.isMarkedCorrupted m) eqn:E.
  - simpl. repeat split; auto.
    + intros [-> | H]; [|exact H].
      unfold users.isMarkedCorrupted in E. apply bool_decide_eq_true in E. exact E.
  - rewrite Hf. simpl. repeat split; auto.
    + unfold users.isMarkedCorrupted. simpl. apply bool_decide_eq_true. set_solver.
    + intros H. apply elem_of_union in H. destruct H as [H|H]; [|auto].
      apply elem_of_singleton in H. auto.
    + intros [-> | H]; set_solver.
Qed.

(** X9: when the flag file can be written, [markCorrupted] leaves the
    database marked as corrupted and reports no error; the only file it adds
    is the flag file, and it touches neither the database nor the local
    groups. Marking again writes nothing, even when writing would fail. *)
Theorem markCorrupted_marks_once (env : users.Env) (m : users.Manager) :
  users.failWriteFlag env = None ->
  let m1 := fst (users.markCorrupted env m) in
  snd (users.markCorrupted env m) = None /\
  users.isMarkedCorrupted m1 = true /\
  (forall env', users.markCorrupted env' m1 = (m1, None)) /\
  (forall f, f ∈ users.files m1 <-> f = users.dirtyFlagPath m \/ f ∈ users.files m) /\
  users.cache m1 = users.cache m /\ users.localGroups m1 = users.localGroups m.
Proof.
  intros Hf m1. destruct (markCorrupted_marks env m Hf) as (H1 & H2 & H3 & _ & H5 & H6 & _).
  repeat split; auto; try apply H3.
  intros env'. unfold users.markCorrupted at 1. fold m1 in H2. rewrite H2. reflexivity.
Qed.

Lemma markCorrupted_marks_once_witness :
  let m1 := fst (users.markCorrupted env_ok manager_empty) in
  snd (users.markCorrupted env_ok manager_empty) = None /\
  users.isMarkedCorrupted m1 = true /\
  (forall env', users.markCorrupted env' m1 = (m1, None)) /\
  (forall f, f ∈ users.files m1 <->
             f = users.dirtyFlagPath manager_empty \/ f ∈ users.files manager_empty) /\
  users.cache m1 = users.cache manager_empty /\
  users.localGroups m1 = users.localGroups manager_empty.
Proof. apply (markCorrupted_marks_once env_ok manager_empty). reflexivity. Defined.

Lemma requestClearDatabase_marks (env : users.Env) (m : users.Manager) :
  users.failWriteFlag env = None ->
  users.isMarkedCorrupted (users.requestClearDatabase env m) = true /\
  users.doClear (users.requestClearDatabase env m) = S (users.doClear m) /\
  users.cache (users.requestClearDatabase env m) = users.cache m /\
  users.localGroups (users.requestClearDatabase env m) = users.localGroups m.
Proof.
  intros Hf. destruct (markCorrupted_marks env m Hf) as (_ & H2 & _ & _ & H5 & H6 & H7).
  unfold users.requestClearDatabase.
  destruct (fst (users.markCorrupted env m)) as [c p f g d r] eqn:E.
  simpl in *. unfold users.isMarkedCorrupted in *. simpl in *. subst. auto.
Qed.

(** X10: [shouldClearDb] hands back the error it is given. For an error that
    is or wraps [ErrNeedsClearing], however deep, it leaves the database
    marked as corrupted (the flag file being writable) and makes one request
    to clear it; for any other error, and for none, the manager is left
    as it is. It never touches the database or the local groups itself. *)
Theorem shouldClearDb_requests_clearing (env : users.Env) (m : users.Manager)
    (e : goerrors.error) :
  goerrors.Is_ErrNeedsClearing e = true ->
  users.failWriteFlag env = None ->
  let res := users.shouldClearDb env m (Some e) in
  snd res = Some e /\
  users.isMarkedCorrupted (fst res) = true /\
  users.doClear (fst res) = S (users.doClear m) /\
  users.cache (fst res) = users.cache m /\
  users.localGroups (fst res) = users.localGroups m /\
  (forall e', goerrors.Is_ErrNeedsClearing e' = false ->
              users.shouldClearDb env m (Some e') = (m, Some e')) /\
  users.shouldClearDb env m None = (m, None).
Proof.
  intros He Hf res. subst res. unfold users.shouldClearDb. rewrite He. simpl.
  destruct (requestClearDatabase_marks env m Hf) as (H1 & H2 & H3 & H4).
  repeat split; auto.
  intros e' He'. rewrite He'. reflexivity.
Qed.

Lemma shouldClearDb_requests_clearing_witness :
  let res := users.shouldClearDb env_ok manager_empty (Some err_wrapped_clearing) in
  snd res = Some err_wrapped_clearing /\
  users.isMarkedCorrupted (fst res) = true /\
  users.doClear (fst res) = S (users.doClear manager_empty) /\
  users.cache (fst res) = users.cache manager_empty /\
  users.localGroups (fst res) = users.localGroups manager_empty /\
  (forall e', goerrors.Is_ErrNeedsClearing e' = false ->
              users.shouldClearDb env_ok manager_empty (Some e') = (manager_empty, Some e')) /\
  users.shouldClearDb env_ok manager_empty None = (manager_empty, None).
Proof.
  apply (shouldClearDb_requests_clearing env_ok manager_empty err_wrapped_clearing);
    reflexivity.
Defined.

(** ** The manager: clearing the database *)

(** X11: when clearing the database fails, [clear] returns that failure and
    leaves everything as it is; in particular the flag file stays, so that
    the next start clears again. *)
Theorem clear_failure_keeps_flag (env : users.Env) (m : users.Manager) (c : cache.Db)
    (e : goerrors.error) :
  users.cache m = Some c ->
  users.failClear env = Some e ->
  users.clear env m =
    Some (m, Some (goerrors.Errorf "could not clear corrupted data: %v" [goerrors.argError e])).
Proof.
  intros Hc He. unfold users.clear, cache.Clear. rewrite Hc, He.
  rewrite (set_cache_same m c Hc). reflexivity.
Qed.

Lemma clear_failure_keeps_flag_witness :
  users.clear env_clear_fails manager_flagged =
    Some (manager_flagged,
          Some (goerrors.Errorf "could not clear corrupted data: %v"
                  [goerrors.argError (goerrors.errorString "disk full")])).
Proof.
  apply (clear_failure_keeps_flag env_clear_fails manager_flagged db_garbled
           (goerrors.errorString "disk full")); reflexivity.
Defined.

(** X12: when the database is cleared and the cleaning of the local groups
    then fails, [clear] returns that failure, yet the database has been
    recreated empty and the flag file removed by then; the local groups are
    as they were. *)
Theorem clear_reports_local_groups_failure (env : users.Env) (m : users.Manager) (c : cache.Db)
    (e : goerrors.error) :
  users.cache m = Some c ->
  users.failClear env = None ->
  users.failRemoveFlag env = None ->
  users.failLocalClean env = Some e ->
  exists m',
    users.clear env m =
      Some (m', Some (goerrors.Errorf "could not clean local groups: %v" [goerrors.argError e])) /\
    users.cache m' = Some cache.emptyDb /\
    users.isMarkedCorrupted m' = false /\
    users.localGroups m' = users.localGroups m.
Proof.
  intros Hc Hcl Hrf Hlc. unfold users.clear, cache.Clear, users.removeFlag, localgroups.Clean.
  rewrite Hc, Hcl, Hrf.
  destruct m as [c0 p f g d r]. simpl in *.
  unfold users.isMarkedCorrupted. simpl.
  destruct (bool_decide (p ∈ f)) eqn:E; simpl; rewrite Hlc; simpl;
    eexists; (split; [reflexivity|]); simpl; repeat split.
  - apply bool_decide_eq_false. apply not_elem_of_difference. right.
    apply elem_of_singleton. reflexivity.
  - exact E.
Qed.

Lemma clear_reports_local_groups_failure_witness :
  exists m',
    users.clear env_clean_fails manager_flagged =
      Some (m', Some (goerrors.Errorf "could not clean local groups: %v"
                        [goerrors.argError (goerrors.errorString "gpasswd failed")])) /\
    users.cache m' = Some cache.emptyDb /\
    users.isMarkedCorrupted m' = false /\
    users.localGroups m' = users.localGroups manager_flagged.
Proof.
  apply (clear_reports_local_groups_failure env_clean_fails manager_flagged db_garbled
           (goerrors.errorString "gpasswd failed")); reflexivity.
Defined.

(** ** The database: all users *)

Lemma insertEntry_perm {V} (kv : string * V) (l : list (string * V)) :
  cache.insertEntry kv l ≡ₚ kv :: l.
Proof.
  induction l as [|x l IH]; simpl; [reflexivity|].
  destruct (String.leb (fst kv) (fst x)); [reflexivity|].
  rewrite IH. apply Permutation_swap.
Qed.

Lemma entries_perm {V} (bucket : gmap string V) : cache.entries bucket ≡ₚ map_to_list bucket.
Proof.
  unfold cache.entries. induction (map_to_list bucket) as [|kv l IH]; simpl; [reflexivity|].
  rewrite insertEntry_perm, IH. reflexivity.
Qed.

Lemma elem_of_entries {V} (bucket : gmap string V) (k : string) (v : V) :
  (k, v) ∈ cache.entries bucket <-> bucket !! k = Some v.
Proof. rewrite entries_perm. apply elem_of_map_to_list. Qed.

(** The iteration answers the users of the entries, in their order, when
    every entry decodes, and fails at an entry that does not. *)
Lemma forEachUser_outcome (l : list (string * cache.stored cache.UserDB))
    (all : list cache.UserPasswdShadow) :
  match cache.forEachUser l all with
  | inl res =>
      res = all ++ omap userbucket.decodedUser l /\
      length (omap userbucket.decodedUser l) = length l /\
      (forall k v, (k, v) ∈ l -> exists e, v = cache.Decodes e)
  | inr err => exists k raw, (k, cache.Garbled raw) ∈ l
  end.
Proof.
  revert all. induction l as [|[k [e|raw]] l IH]; intros all.
  - simpl. rewrite app_nil_r. repeat split. intros k v H. inversion H.
  - change (cache.forEachUser ((k, cache.Decodes e) :: l) all)
      with (cache.forEachUser l (all ++ [cache.toUserPasswdShadow e])).
    change (omap userbucket.decodedUser ((k, cache.Decodes e) :: l))
      with (cache.toUserPasswdShadow e :: omap userbucket.decodedUser l).
    specialize (IH (all ++ [cache.toUserPasswdShadow e])).
    destruct (cache.forEachUser l (all ++ [cache.toUserPasswdShadow e])) as [res|err].
    + destruct IH as (-> & Hlen & Hdec). rewrite <- app_assoc.
      split; [reflexivity|]. split; [cbn [length]; f_equal; exact Hlen|].
      intros k' v H. apply elem_of_cons in H. destruct H as [[= -> ->]|H]; eauto.
    + destruct IH as (k' & raw & H). exists k', raw. apply elem_of_cons. auto.
  - simpl. exists k, raw. apply elem_of_cons. auto.
Qed.

(** X13: [AllUsers] of the database is all or nothing. It answers without
    error exactly when the bucket of users is there and every entry decodes,
    and then with one user for each entry; otherwise it answers no user at
    all, with an error that asks for clearing, and either the bucket is
    missing or some entry does not decode. *)
Theorem AllUsers_all_or_nothing (c : cache.Db) :
  match cache.AllUsers c with
  | (all, None) =>
      exists bucket,
        cache.userByID c = Some bucket /\
        (forall k v, bucket !! k = Some v -> exists e, v = cache.Decodes e) /\
        length all = size bucket /\
        (forall u, u ∈ all <->
                   exists k e, bucket !! k = Some (cache.Decodes e) /\
                               u = cache.toUserPasswdShadow e)
  | (all, Some err) =>
      all = [] /\ goerrors.Is_ErrNeedsClearing err = true /\
      (cache.userByID c = None \/
       exists bucket k raw,
         cache.userByID c = Some bucket /\ bucket !! k = Some (cache.Garbled raw))
  end.
Proof.
  unfold cache.AllUsers, cache.getBucket.
  destruct (cache.userByID c) as [bucket|]; [|simpl; auto].
  pose proof (forEachUser_outcome (cache.entries bucket) []) as H.
  destruct (cache.forEachUser (cache.entries bucket) []) as [res|err].
  - destruct H as (-> & Hlen & Hdec). simpl. exists bucket. split; [reflexivity|].
    split; [|split].
    + intros k v Hk. apply (Hdec k v). apply elem_of_entries. exact Hk.
    + rewrite Hlen, entries_perm. apply length_map_to_list.
    + intros u. rewrite list_elem_of_omap. split.
      * intros [[k v] [Hin Hu]]. apply elem_of_entries in Hin.
        unfold userbucket.decodedUser in Hu. simpl in Hu. destruct v as [e|raw]; [|discriminate].
        injection Hu as <-. eauto.
      * intros (k & e & Hk & ->). exists (k, cache.Decodes e). split; [|reflexivity].
        apply elem_of_entries. exact Hk.
  - destruct H as (k & raw & H). apply elem_of_entries in H. simpl.
    split; [reflexivity|]. split; [reflexivity|]. right. eauto.
Qed.

Lemma AllUsers_garbled (c : cache.Db) (bucket : gmap string (cache.stored cache.UserDB))
    (k raw : string) :
  cache.userByID c = Some bucket ->
  bucket !! k = Some (cache.Garbled raw) ->
  exists err, cache.AllUsers c = ([], Some err) /\ goerrors.Is_ErrNeedsClearing err = true.
Proof.
  intros Hb Hk. unfold cache.AllUsers, cache.getBucket. rewrite Hb.
  pose proof (forEachUser_outcome (cache.entries bucket) []) as H.
  destruct (cache.forEachUser (cache.entries bucket) []) as [res|err].
  - destruct H as (_ & _ & Hdec). apply elem_of_entries in Hk.
    destruct (Hdec _ _ Hk) as [e He]. discriminate.
  - eexists. split; reflexivity.
Qed.

(** X14: when an entry of the bucket of users does not decode, [AllUsers] of
    the manager answers no user and an error that asks for clearing, leaves
    the database marked as corrupted and makes one request to clear it; the
    database itself is not changed by the call. *)
Theorem AllUsers_garbled_marks (env : users.Env) (m : users.Manager) (c : cache.Db)
    (bucket : gmap string (cache.stored cache.UserDB)) (k raw : string) :
  users.cache m = Some c ->
  cache.userByID c = Some bucket ->
  bucket !! k = Some (cache.Garbled raw) ->
  users.failWriteFlag env = None ->
  exists m' err,
    users.AllUsers env m = Some (m', [], Some err) /\
    goerrors.Is_ErrNeedsClearing err = true /\
    users.isMarkedCorrupted m' = true /\
    users.doClear m' = S (users.doClear m) /\
    users.cache m' = users.cache m.
Proof.
  intros Hc Hb Hk Hf. destruct (AllUsers_garbled c bucket k raw Hb Hk) as (err & Ha & He).
  unfold users.AllUsers. rewrite Hc, Ha. unfold users.shouldClearDb. rewrite He.
  destruct (requestClearDatabase_marks env m Hf) as (H1 & H2 & H3 & _).
  exists (users.requestClearDatabase env m), err. repeat split; auto; congruence.
Qed.

Lemma AllUsers_garbled_marks_witness :
  exists m' err,
    users.AllUsers env_ok manager_garbled = Some (m', [], Some err) /\
    goerrors.Is_ErrNeedsClearing err = true /\
    users.isMarkedCorrupted m' = true /\
    users.doClear m' = S (users.doClear manager_garbled) /\
    users.cache m' = users.cache manager_garbled.
Proof.
  apply (AllUsers_garbled_marks env_ok manager_garbled db_garbled
           {[ "70001"%string := cache.Garbled "{oops" ]} "70001" "{oops"); reflexivity.
Defined.

(** ** The uids of the running processes *)

Lemma uidLoop_outcome (dirEntries : list procdir.DirEntry) (acc : gset Z) :
  match procdir.uidLoop dirEntries acc with
  | inl uids =>
      (forall uid, uid ∈ uids <->
                   uid ∈ acc \/
                   exists e, e ∈ dirEntries /\ procdir.isProcess e = true /\
                             procdir.Info e = procdir.Stat_t uid) /\
      (forall e, e ∈ dirEntries -> procdir.isProcess e = true -> procdir.blocks e = false)
  | inr err => exists e, e ∈ dirEntries /\ procdir.isProcess e = true /\ procdir.blocks e = true
  end.
Proof.
  revert acc. induction dirEntries as [|d rest IH]; intros acc; simpl.
  - split.
    + intros uid. split; [auto|]. intros [H|(e & H & _)]; [exact H | inversion H].
    + intros e H. inversion H.
  - destruct (strconv.Atoi (procdir.Name d)) as [pid|] eqn:Ea.
    + destruct (procdir.Info d) as [err|err|uid0|name] eqn:Ei.
      * specialize (IH acc). destruct (procdir.uidLoop rest acc) as [uids|err'].
        -- destruct IH as [Hu Hb]. split.
           ++ intros uid. rewrite Hu. split.
              ** intros [H|(e & H & Hp & Hi)]; [auto|]. right. exists e.
                 rewrite elem_of_cons. auto.
              ** intros [H|(e & H & Hp & Hi)]; [auto|]. apply elem_of_cons in H.
                 destruct H as [->|H]; [congruence|]. right. eauto.
           ++ intros e H Hp. apply elem_of_cons in H. destruct H as [->|H]; [|auto].
              unfold procdir.blocks. rewrite Ei. reflexivity.
        -- destruct IH as (e & H & Hp & Hb). exists e. rewrite elem_of_cons. auto.
      * exists d. rewrite elem_of_cons. unfold procdir.isProcess, procdir.blocks.
        rewrite Ea, Ei. auto.
      * specialize (IH ({[uid0]} ∪ acc)).
        destruct (procdir.uidLoop rest ({[uid0]} ∪ acc)) as [uids|err'].
        -- destruct IH as [Hu Hb]. split.
           ++ intros uid. rewrite Hu, elem_of_union, elem_of_singleton. split.
              ** intros [[->|H]|(e & H & Hp & Hi)]; auto.
                 --- right. exists d. rewrite elem_of_cons. unfold procdir.isProcess.
                     rewrite Ea. auto.
                 --- right. exists e. rewrite elem_of_cons. auto.
              ** intros [H|(e & H & Hp & Hi)]; [auto|]. apply elem_of_cons in H.
                 destruct H as [->|H]; [left; left; congruence|]. right. eauto.
           ++ intros e H Hp. apply elem_of_cons in H. destruct H as [->|H]; [|auto].
              unfold procdir.blocks. rewrite Ei. reflexivity.
        -- destruct IH as (e & H & Hp & Hb). exists e. rewrite elem_of_cons. auto.
      * exists d. rewrite elem_of_cons. unfold procdir.isProcess, procdir.blocks.
        rewrite Ea, Ei. auto.
    + specialize (IH acc). destruct (procdir.uidLoop rest acc) as [uids|err'].
      * destruct IH as [Hu Hb]. split.
        -- intros uid. rewrite Hu. split.
           ++ intros [H|(e & H & Hp & Hi)]; [auto|]. right. exists e.
              rewrite elem_of_cons. auto.
           ++ intros [H|(e & H & Hp & Hi)]; [auto|]. apply elem_of_cons in H.
              destruct H as [->|H]; [|right; eauto].
              unfold procdir.isProcess in Hp. rewrite Ea in Hp. discriminate.
        -- intros e H Hp. apply elem_of_cons in H. destruct H as [->|H]; [|auto].
           unfold procdir.isProcess in Hp. rewrite Ea in Hp. discriminate.
      * destruct IH as (e & H & Hp & Hb). exists e. rewrite elem_of_cons. auto.
Qed.

(** X15: when [getUIDsOfRunningProcesses] succeeds, the uids it returns are
    exactly the owners of the entries whose name is a number and whose
    ownership can be read, and no such entry failed to give its information
    for a reason other than being gone; when it fails, some entry named as a
    process could not be read, or was owned in no readable way. *)
Theorem getUIDs_owners_of_processes (dirEntries : list procdir.DirEntry) :
  match procdir.getUIDsOfRunningProcesses (inl dirEntries) with
  | inl uids =>
      (forall uid, uid ∈ uids <->
                   exists e, e ∈ dirEntries /\ procdir.isProcess e = true /\
                             procdir.Info e = procdir.Stat_t uid) /\
      (forall e, e ∈ dirEntries -> procdir.isProcess e = true -> procdir.blocks e = false)
  | inr err => exists e, e ∈ dirEntries /\ procdir.isProcess e = true /\ procdir.blocks e = true
  end.
Proof.
  unfold procdir.getUIDsOfRunningProcesses.
  pose proof (uidLoop_outcome dirEntries ∅) as H.
  destruct (procdir.uidLoop dirEntries ∅) as [uids|err]; [|exact H].
  destruct H as [Hu Hb]. split; [|exact Hb].
  intros uid. rewrite Hu. split; [|auto]. intros [H|H]; [|exact H].
  apply elem_of_empty in H. contradiction.
Qed.

Lemma uidLoop_filter (dirEntries : list procdir.DirEntry) (acc : gset Z) :
  procdir.uidLoop
    (List.filter (fun e => procdir.isProcess e && negb (procdir.vanished e)) dirEntries) acc =
  procdir.uidLoop dirEntries acc.
Proof.
  revert acc. induction dirEntries as [|d rest IH]; intros acc; simpl; [reflexivity|].
  unfold procdir.isProcess at 1, procdir.vanished at 1.
  destruct (strconv.Atoi (procdir.Name d)) as [pid|] eqn:Ea; simpl; [|apply IH].
  destruct (procdir.Info d) as [err|err|uid0|name] eqn:Ei; simpl;
    rewrite ?Ea, ?Ei; auto.
Qed.

(** X16: the entries whose name is no number, and the processes that are
    gone by the time they are looked at, count for nothing: taking them out
    of the directory changes neither the uids returned nor the error. *)
Theorem getUIDs_skips_other_entries (dirEntries : list procdir.DirEntry) :
  procdir.getUIDsOfRunningProcesses
    (inl (List.filter (fun e => procdir.isProcess e && negb (procdir.vanished e)) dirEntries)) =
  procdir.getUIDsOfRunningProcesses (inl dirEntries).
Proof. unfold procdir.getUIDsOfRunningProcesses. rewrite uidLoop_filter. reflexivity. Qed.

Lemma getUIDs_scan (dirEntries : list procdir.DirEntry) :
  (exists e, e ∈ dirEntries /\ procdir.isProcess e = true /\ procdir.blocks e = true) ->
  exists err, procdir.getUIDsOfRunningProcesses (inl dirEntries) = inr err.
Proof.
  intros (e & Hin & Hp & Hb). unfold procdir.getUIDsOfRunningProcesses.
  pose proof (uidLoop_outcome dirEntries ∅) as H.
  destruct (procdir.uidLoop dirEntries ∅) as [uids|err]; [|eauto].
  destruct H as [_ H]. rewrite (H e Hin Hp) in Hb. discriminate.
Qed.

(** X17: when the process directory cannot be read, or holds an entry named
    as a process whose owner cannot be read, the cleanup of expired users
    gives up before it touches anything: the manager is left as it is, and
    this even without an open database. *)
Theorem cleanExpiredUserData_needs_proc_scan (env : users.Env) (m : users.Manager)
    (ReadDir : list procdir.DirEntry + goerrors.error) :
  match ReadDir with
  | inr _ => True
  | inl dirEntries =>
      exists e, e ∈ dirEntries /\ procdir.isProcess e = true /\ procdir.blocks e = true
  end ->
  exists err,
    procdir.getUIDsOfRunningProcesses ReadDir = inr err /\
    users.cleanExpiredUserData (procdir.scanning env ReadDir) m =
      Some (m, Some (goerrors.Errorf "could not get list of active users: %v"
                       [goerrors.argError err])).
Proof.
  intros H. unfold users.cleanExpiredUserData, procdir.scanning. simpl.
  destruct ReadDir as [dirEntries|err0].
  - pose proof (getUIDs_scan dirEntries H) as [err E]. rewrite E. eauto.
  - simpl. eauto.
Qed.

Lemma cleanExpiredUserData_needs_proc_scan_witness :
  exists err,
    procdir.getUIDsOfRunningProcesses (inl proc_unreadable) = inr err /\
    users.cleanExpiredUserData (procdir.scanning env_ok (inl proc_unreadable)) manager_alice =
      Some (manager_alice,
            Some (goerrors.Errorf "could not get list of active users: %v"
                    [goerrors.argError err])).
Proof.
  apply (cleanExpiredUserData_needs_proc_scan env_ok manager_alice (inl proc_unreadable)).
  exists {| procdir.Name := "31"; procdir.Info :=
              procdir.Unreadable (goerrors.errorString "permission denied") |}.
  split; [|split; reflexivity].
  unfold proc_unreadable. apply elem_of_app. right. apply elem_of_cons. left. reflexivity.
Defined.

(** ** NewManager: a database that cannot be opened *)

Lemma Clean_no_store (groups : gmap string (list string)) :
  localgroups.Clean None None groups = (∅, None).
Proof.
  unfold localgroups.Clean. f_equal. apply map_empty. intros i.
  apply map_lookup_filter_None. right. intros x _ H. simpl in H. discriminate.
Qed.

(** X18: when the file of the database is no database, and the flag file is
    not there, [NewManager] removes the file and opens a new, empty database:
    the manager it returns has no user. The local groups are cleaned on the
    way, no user being left; if that cleaning fails the failure is only
    logged and the local groups stay as they were. *)
Theorem NewManager_recreates_invalid_db (filepath_Join : string -> string -> string)
    (env : users.Env) (host : users.Host) (cacheDir raw : string) :
  users.dbFile host = cache.Invalid raw ->
  filepath_Join cacheDir users.dirtyFlagName ∉ users.hostFiles host ->
  users.failOpen env = None -> users.failRemoveDb env = None ->
  users.NewManager filepath_Join env host cacheDir =
    users.Created
      {| users.cache := Some cache.emptyDb;
         users.dirtyFlagPath := filepath_Join cacheDir users.dirtyFlagName;
         users.files := users.hostFiles host;
         users.localGroups :=
           match users.failLocalClean env with
           | None => ∅
           | Some _ => users.hostGroups host
           end;
         users.doClear := 0%nat; users.cleanupRoutine := true |}.
Proof.
  intros Hfile Hflag Ho Hr. unfold users.NewManager. cbn [users.openLoop].
  rewrite Hfile. unfold cache.New, cache.RemoveDb. rewrite Ho, Hr. simpl.
  set (groups := fst (localgroups.Clean (users.failLocalClean env) None (users.hostGroups host))).
  assert (Hg : groups = match users.failLocalClean env with
                        | None => ∅
                        | Some _ => users.hostGroups host
                        end).
  { subst groups. destruct (users.failLocalClean env) eqn:E; [reflexivity|].
    rewrite Clean_no_store. reflexivity. }
  rewrite Hg. clear Hg groups.
  unfold users.isMarkedCorrupted. simpl.
  rewrite bool_decide_eq_false_2 by exact Hflag.
  destruct (users.cleanOnNew env); [|reflexivity].
  unfold users.cleanExpiredUserData. simpl.
  destruct (users.runningUIDs env) as [uids|err]; [|reflexivity].
  rewrite CleanExpiredUsers_emptyDb. reflexivity.
Qed.

Lemma NewManager_recreates_invalid_db_witness :
  users.NewManager join_plain env_ok host_invalid "/var/cache/authd" =
    users.Created
      {| users.cache := Some cache.emptyDb;
         users.dirtyFlagPath := join_plain "/var/cache/authd" users.dirtyFlagName;
         users.files := users.hostFiles host_invalid;
         users.localGroups :=
           match users.failLocalClean env_ok with
           | None => ∅
           | Some _ => users.hostGroups host_invalid
           end;
         users.doClear := 0%nat; users.cleanupRoutine := true |}.
Proof.
  apply (NewManager_recreates_invalid_db join_plain env_ok host_invalid "/var/cache/authd"
           "not a database"); try reflexivity.
  apply not_elem_of_empty.
Defined.

(** X19: when opening the database fails on both attempts with an error that
    asks for clearing, [NewManager] runs out of attempts without a database
    and goes on: with no flag file and no cleaning at start it returns a
    manager and no error, although the manager has no database. The lookups
    on that manager then dereference a nil cache. *)
Theorem NewManager_without_database (filepath_Join : string -> string -> string)
    (env : users.Env) (host : users.Host) (cacheDir : string) (e : goerrors.error) :
  users.failOpen env = Some e ->
  goerrors.Is_ErrNeedsClearing e = true ->
  users.failRemoveDb env = None ->
  filepath_Join cacheDir users.dirtyFlagName ∉ users.hostFiles host ->
  users.cleanOnNew env = false ->
  exists m,
    users.NewManager filepath_Join env host cacheDir = users.Created m /\
    users.cache m = None /\
    (forall env' name, users.UserByName env' m name = None) /\
    (forall env' uid, users.UserByID env' m uid = None) /\
    (forall env', users.AllUsers env' m = None).
Proof.
  intros Ho He Hr Hflag Hc. unfold users.NewManager. cbn [users.openLoop].
  unfold cache.New, cache.RemoveDb. rewrite Ho, He, Hr. simpl.
  unfold users.isMarkedCorrupted. simpl.
  rewrite bool_decide_eq_false_2 by exact Hflag. rewrite Hc.
  eexists. split; [reflexivity|]. simpl. repeat split.
Qed.

Lemma NewManager_without_database_witness :
  exists m,
    users.NewManager join_plain env_unopenable host_invalid "/var/cache/authd" =
      users.Created m /\
    users.cache m = None /\
    (forall env' name, users.UserByName env' m name = None) /\
    (forall env' uid, users.UserByID env' m uid = None) /\
    (forall env', users.AllUsers env' m = None).
Proof.
  apply (NewManager_without_database join_plain env_unopenable host_invalid "/var/cache/authd"
           (goerrors.joinError [goerrors.ErrNeedsClearing; goerrors.errorString "timeout"]));
    try reflexivity.
  apply not_elem_of_empty.
Defined.

(** ** UpdateUser: what is stored, and what is refused *)

Lemma shouldClearDb_frame (env : users.Env) (m : users.Manager) (err : option goerrors.error) :
  snd (users.shouldClearDb env m err) = err /\
  users.cache (fst (users.shouldClearDb env m err)) = users.cache m /\
  users.localGroups (fst (users.shouldClearDb env m err)) = users.localGroups m.
Proof.
  unfold users.shouldClearDb, users.requestClearDatabase, users.markCorrupted.
  destruct err as [e|]; [|auto].
  destruct (goerrors.Is_ErrNeedsClearing e); [|auto].
  destruct (users.isMarkedCorrupted m); [simpl; auto|].
  destruct (users.failWriteFlag env); simpl; auto.
Qed.

(** X20: a user stored by a successful [UpdateUser] is found again by name
    and by id, in any later environment: the entry has the name, the uid,
    the gecos, the home directory and the shell that were given, and its
    gid is the gid of the first group of the user; no error comes with it
    and the lookups leave the manager as it is. *)
Theorem UpdateUser_then_lookup (env : users.Env) (m m' : users.Manager) (u : users.UserInfo) :
  users.UpdateUser env m u = Some (m', None) ->
  exists g0 rest gid0,
    users.Groups u = g0 :: rest /\ users.GID g0 = Some gid0 /\
    (forall env', users.UserByName env' m' (users.Name u) =
                    Some (m', userbucket.entryOf u gid0, None)) /\
    (forall env', users.UserByID env' m' (users.UID u) =
                    Some (m', userbucket.entryOf u gid0, None)).
Proof.
  unfold users.UpdateUser. destruct (users.updateUser env m u) as [[m1 err]|] eqn:E; [|discriminate].
  destruct err as [err|]; [discriminate|]. simpl. intros [= <-].
  unfold users.updateUser in E.
  destruct (String.eqb (users.Name u) ""); [discriminate|].
  destruct (users.Groups u) as [|g0 rest] eqn:Hg; [discriminate|].
  destruct (users.GID g0) as [gid0|] eqn:H0; [|discriminate].
  destruct (users.groupLoop (users.Name u) (g0 :: rest) [] []) as [[groupContents lg]|err];
    [|discriminate].
  destruct (users.cache m) as [c|]; [|discriminate].
  unfold cache.UpdateUserEntry in E.
  destruct (users.failUpdateEntry env) as [e|].
  { destruct (shouldClearDb_frame env (users.set_cache (Some c) m) (Some e)) as [Hs _].
    destruct (users.shouldClearDb env (users.set_cache (Some c) m) (Some e)) as [m2 err2].
    simpl in Hs. subst err2. discriminate. }
  destruct (cache.allBuckets c); simpl in E.
  2:{ destruct (shouldClearDb_frame env (users.set_cache (Some c) m) (Some cache.missingBucket))
        as [Hs _].
      destruct (users.shouldClearDb env (users.set_cache (Some c) m) (Some cache.missingBucket))
        as [m2 err2].
      simpl in Hs. subst err2. discriminate. }
  unfold localgroups.Update in E. destruct (users.failLocalUpdate env) as [e|].
  { destruct (cache.DeleteUser _ _ _) as [c2 derr] in E.
    destruct (users.shouldClearDb _ _ derr) as [m2 derr2] in E.
    destruct derr2; discriminate. }
  injection E as <-.
  exists g0, rest, gid0. split; [reflexivity|]. split; [exact H0|].
  split; intros env'.
  - unfold users.UserByName. simpl users.cache. cbv beta iota.
    unfold cache.UserByName, cache.getUser, cache.getFromBucket. simpl.
    rewrite lookup_insert_eq. reflexivity.
  - unfold users.UserByID. simpl users.cache. cbv beta iota.
    unfold cache.UserByID, cache.getUser, cache.getFromBucket. simpl.
    rewrite lookup_insert_eq. reflexivity.
Qed.

Lemma UpdateUser_then_lookup_witness :
  exists g0 rest gid0,
    users.Groups alice = g0 :: rest /\ users.GID g0 = Some gid0 /\
    (forall env', users.UserByName env' manager_alice (users.Name alice) =
                    Some (manager_alice, userbucket.entryOf alice gid0, None)) /\
    (forall env', users.UserByID env' manager_alice (users.UID alice) =
                    Some (manager_alice, userbucket.entryOf alice gid0, None)).
Proof.
  apply (UpdateUser_then_lookup env_ok manager_empty manager_alice alice).
  vm_compute. reflexivity.
Defined.

Lemma groupLoop_empty_name (username : string) (groups : list users.GroupInfo)
    (groupContents : list cache.GroupDB) (localGroups : list string) :
  Exists (fun g => users.GroupName g = ""%string) groups ->
  users.groupLoop username groups groupContents localGroups =
    inr (goerrors.Errorf "empty group name for user %q" [goerrors.argString username]).
Proof.
  intros H. revert groupContents localGroups.
  induction H as [g groups Hg|g groups _ IH]; intros groupContents localGroups; simpl.
  - rewrite Hg. reflexivity.
  - destruct (String.eqb (users.GroupName g) ""); [reflexivity|].
    destruct (users.GID g); apply IH.
Qed.

(** X21: a user one of whose groups has an empty name is refused, wherever
    the group stands in the list: the error names the user, nothing is
    written, and the database is not even looked at. *)
Theorem UpdateUser_rejects_empty_group_name (env : users.Env) (m : users.Manager)
    (u : users.UserInfo) (g0 : users.GroupInfo) (rest : list users.GroupInfo) (gid0 : Z) :
  users.Name u <> ""%string ->
  users.Groups u = g0 :: rest ->
  users.GID g0 = Some gid0 ->
  Exists (fun g => users.GroupName g = ""%string) (users.Groups u) ->
  users.UpdateUser env m u =
    Some (m, Some (goerrors.wrapError "failed to update user %q"
                     [goerrors.argString (users.Name u)]
                     (goerrors.Errorf "empty group name for user %q"
                        [goerrors.argString (users.Name u)]))).
Proof.
  intros Hn Hg H0 Hex. apply String.eqb_neq in Hn.
  unfold users.UpdateUser, users.updateUser. rewrite Hn.
  rewrite (groupLoop_empty_name _ _ [] [] Hex). rewrite Hg, H0. reflexivity.
Qed.

Lemma UpdateUser_rejects_empty_group_name_witness :
  users.UpdateUser env_ok manager_empty unnamed_group =
    Some (manager_empty,
          Some (goerrors.wrapError "failed to update user %q"
                  [goerrors.argString (users.Name unnamed_group)]
                  (goerrors.Errorf "empty group name for user %q"
                     [goerrors.argString (users.Name unnamed_group)]))).
Proof.
  apply (UpdateUser_rejects_empty_group_name env_ok manager_empty unnamed_group
           {| users.GroupName := "staff"; users.GID := Some 70000 |}
           [ {| users.GroupName := ""; users.GID := Some 70009 |} ] 70000);
    try reflexivity; [discriminate|].
  apply Exists_cons_tl. apply Exists_cons_hd. reflexivity.
Defined.

(** X22: when writing the user to the database fails, [UpdateUser] returns
    that failure under its own message and does not touch the local groups;
    the database is marked as corrupted only if the failure asks for
    clearing, and otherwise the manager is left as it is. *)
Theorem UpdateUser_write_failure (env : users.Env) (m : users.Manager) (c : cache.Db)
    (u : users.UserInfo) (g0 : users.GroupInfo) (rest : list users.GroupInfo) (gid0 : Z)
    (e : goerrors.error) :
  users.Name u <> ""%string ->
  users.Groups u = g0 :: rest ->
  users.GID g0 = Some gid0 ->
  Forall (fun g => users.GroupName g <> ""%string) (users.Groups u) ->
  users.cache m = Some c ->
  users.failUpdateEntry env = Some e ->
  let m' := fst (users.shouldClearDb env m (Some e)) in
  users.UpdateUser env m u =
    Some (m', Some (goerrors.wrapError "failed to update user %q"
                      [goerrors.argString (users.Name u)] e)) /\
  users.cache m' = Some c /\
  users.localGroups m' = users.localGroups m /\
  (goerrors.Is_ErrNeedsClearing e = false -> m' = m) /\
  (goerrors.Is_ErrNeedsClearing e = true -> users.failWriteFlag env = None ->
   users.isMarkedCorrupted m' = true).
Proof.
  intros Hn Hg H0 Hnames Hc He m'. apply String.eqb_neq in Hn.
  destruct (shouldClearDb_frame env m (Some e)) as (Hs & Hc' & Hl). fold m' in Hc', Hl.
  split; [|split; [|split; [|split]]].
  - unfold users.UpdateUser, users.updateUser. rewrite Hn.
    rewrite (groupLoop_split _ _ [] [] Hnames). simpl app.
    rewrite Hg at 1. rewrite H0, Hc. unfold cache.UpdateUserEntry. rewrite He.
    rewrite (set_cache_same m c Hc). subst m'.
    destruct (users.shouldClearDb env m (Some e)) as [m2 err2]. simpl in Hs. subst err2.
    reflexivity.
  - congruence.
  - exact Hl.
  - intros Hi. subst m'. unfold users.shouldClearDb. rewrite Hi. reflexivity.
  - intros Hi Hf. subst m'. unfold users.shouldClearDb. rewrite Hi.
    apply (requestClearDatabase_marks env m Hf).
Qed.

Lemma UpdateUser_write_failure_witness :
  let m' := fst (users.shouldClearDb env_write_fails manager_empty (Some err_wrapped_clearing)) in
  users.UpdateUser env_write_fails manager_empty alice =
    Some (m', Some (goerrors.wrapError "failed to update user %q"
                      [goerrors.argString (users.Name alice)] err_wrapped_clearing)) /\
  users.cache m' = Some cache.emptyDb /\
  users.localGroups m' = users.localGroups manager_empty /\
  (goerrors.Is_ErrNeedsClearing err_wrapped_clearing = false -> m' = manager_empty) /\
  (goerrors.Is_ErrNeedsClearing err_wrapped_clearing = true ->
   users.failWriteFlag env_write_fails = None ->
   users.isMarkedCorrupted m' = true).
Proof.
  apply (UpdateUser_write_failure env_write_fails manager_empty cache.emptyDb alice
           {| users.GroupName := "staff"; users.GID := Some 70000 |}
           [ {| users.GroupName := "sudo"; users.GID := None |} ] 70000 err_wrapped_clearing);
    try reflexivity; [discriminate|].
  repeat constructor; discriminate.
Defined.
